(** * library-dependencies-extractor: the dependency extraction run

    A shallow embedding of the extractor's [main] (the variant that reads a
    library index, probes every indexed library through the builder and
    writes the [requires] fields back), with the Go library functions it
    calls, followed by the properties of the run. *)

From Stdlib Require Import Floats.PrimFloat Strings.Ascii.
From stdpp Require Import gmap strings list.

Set Warnings "-register-all,-inexact-float".

Local Open Scope string_scope.
Local Open Scope Z_scope.
Local Open Scope list_scope.
Local Open Scope stdpp_scope.

(** ** Go standard library: strings, path/filepath, rune conversion *)

Module strings.

(** [strings.HasPrefix(s, prefix)]. *)
Fixpoint HasPrefix (s prefix : string) : bool :=
  match prefix, s with
  | EmptyString, _ => true
  | String c prefix', String d s' => Ascii.eqb c d && HasPrefix s' prefix'
  | String _ _, EmptyString => false
  end.

(** [strings.Contains(s, substr)]: [substr] occurs somewhere in [s]. *)
Fixpoint Contains (s substr : string) : bool :=
  HasPrefix s substr ||
  match s with
  | EmptyString => false
  | String _ s' => Contains s' substr
  end.

End strings.

Module filepath.

Definition slash : ascii := Ascii.ascii_of_nat 47.
Definition dot : ascii := Ascii.ascii_of_nat 46.

Definition isSlash (c : ascii) : bool := Ascii.eqb c slash.

Fixpoint dropWhile {A} (p : A -> bool) (l : list A) : list A :=
  match l with
  | [] => []
  | x :: l' => if p x then dropWhile p l' else l
  end.

Fixpoint takeWhile {A} (p : A -> bool) (l : list A) : list A :=
  match l with
  | [] => []
  | x :: l' => if p x then x :: takeWhile p l' else []
  end.

(** [filepath.Base(path)]: the last element of [path]; trailing
    separators are removed first; the empty path gives ".", a path of
    separators only gives "/". *)
Definition Base (path : string) : string :=
  match String.list_ascii_of_string path with
  | [] => "."
  | cs =>
      match dropWhile isSlash (rev cs) with
      | [] => "/"
      | rs => String.string_of_list_ascii (rev (takeWhile (fun c => negb (isSlash c)) rs))
      end
  end.

(** [filepath.Ext(path)]: the suffix starting at the last dot of the last
    element of [path], empty when that element has no dot. *)
Fixpoint extRev (rs : list ascii) (acc : list ascii) : list ascii :=
  match rs with
  | [] => []
  | c :: rs' =>
      if isSlash c then []
      else if Ascii.eqb c dot then c :: acc
      else extRev rs' (c :: acc)
  end.

Definition Ext (path : string) : string :=
  String.string_of_list_ascii (extRev (rev (String.list_ascii_of_string path)) []).

(** Splitting at separators, for [Clean]. *)
Fixpoint splitSlash (cs : list ascii) (cur : list ascii) : list (list ascii) :=
  match cs with
  | [] => [rev cur]
  | c :: cs' =>
      if isSlash c then rev cur :: splitSlash cs' [] else splitSlash cs' (c :: cur)
  end.

(** One element of the path against the elements kept so far (innermost
    first): "" and "." vanish, ".." removes the element before it, is
    dropped at the root and kept at the start of a relative path. *)
Definition cleanStep (rooted : bool) (kept : list (list ascii)) (elem : list ascii)
  : list (list ascii) :=
  if bool_decide (elem = []) || bool_decide (elem = [dot]) then kept
  else if bool_decide (elem = [dot; dot]) then
    match kept with
    | top :: kept' =>
        if bool_decide (top = [dot; dot]) then elem :: kept else kept'
    | [] => if rooted then [] else [elem]
    end
  else elem :: kept.

Fixpoint joinSlash (elems : list (list ascii)) : list ascii :=
  match elems with
  | [] => []
  | [e] => e
  | e :: rest => e ++ slash :: joinSlash rest
  end.

(** [filepath.Clean(path)]. *)
Definition Clean (path : string) : string :=
  let cs := String.list_ascii_of_string path in
  let rooted := match cs with c :: _ => isSlash c | [] => false end in
  let kept := rev (fold_left (cleanStep rooted) (splitSlash cs []) []) in
  match ((if rooted then [slash] else []) ++ joinSlash kept)%list with
  | [] => "."
  | out => String.string_of_list_ascii out
  end.

(** [filepath.Join(elem...)]: the non-empty elements joined by a
    separator, cleaned; no non-empty element gives the empty string. *)
Definition Join (elems : list string) : string :=
  match filter (fun e => negb (String.eqb e "")) elems with
  | [] => ""
  | es => Clean (String.string_of_list_ascii (joinSlash (map String.list_ascii_of_string es)))
  end.

End filepath.

(** The conversion [string(n)] of an integer: the UTF-8 encoding of the code
    point [n], and of U+FFFD when [n] is not a valid code point. *)
Definition byte_of (n : Z) : ascii := Ascii.ascii_of_N (Z.to_N n).

Definition utf8 (r : Z) : string :=
  if r <? 128 then String (byte_of r) ""
  else if r <? 2048 then
    String (byte_of (Z.lor 192 (Z.shiftr r 6)))
      (String (byte_of (Z.lor 128 (Z.land r 63))) "")
  else if r <? 65536 then
    String (byte_of (Z.lor 224 (Z.shiftr r 12)))
      (String (byte_of (Z.lor 128 (Z.land (Z.shiftr r 6) 63)))
         (String (byte_of (Z.lor 128 (Z.land r 63))) ""))
  else
    String (byte_of (Z.lor 240 (Z.shiftr r 18)))
      (String (byte_of (Z.lor 128 (Z.land (Z.shiftr r 12) 63)))
         (String (byte_of (Z.lor 128 (Z.land (Z.shiftr r 6) 63)))
            (String (byte_of (Z.lor 128 (Z.land r 63))) ""))).

Definition string_of_int (n : Z) : string :=
  if (n <? 0) || (1114111 <? n) || ((55296 <=? n) && (n <=? 57343))
  then utf8 65533
  else utf8 n.

(** [strconv.Itoa] on the non-negative integers, for comparison with
    [string_of_int]. *)
Definition digit (n : Z) : ascii := Ascii.ascii_of_N (Z.to_N (48 + n)).

Fixpoint itoaFuel (fuel : nat) (n : Z) (acc : string) : string :=
  match fuel with
  | O => acc
  | S fuel' =>
      let acc' := String (digit (n mod 10)) acc in
      if n / 10 =? 0 then acc' else itoaFuel fuel' (n / 10) acc'
  end.

Definition Itoa (n : Z) : string := itoaFuel (S (Z.to_nat (Z.log2 n))) n "".

(** ** The builder's types

    The fields of [types.Library] and [types.Context] (arduino.cc/builder)
    that [main] reads or writes. *)

Module types.

Record Library := {
  Name : string;
  RealName : string;
  Version : string;
  Folder : string;
  Archs : list string
}.

Inductive logger := NoopLogger | MachineLogger | HumanLogger.

Record Context := {
  HardwareFolders : list string;
  ToolsFolders : list string;
  OtherLibrariesFolders : list string;
  BuiltInLibrariesFolders : list string;
  BuildPath : string;
  BuildCachePath : string;
  Verbose : bool;
  ArduinoAPIVersion : string;
  DebugLevel : Z;
  Logger : logger;
  FQBN : string;
  SketchLocation : string;
  Libraries : list Library;
  ImportedLibraries : list Library;
  IncludeFolders : list string
}.

Definition empty : Context :=
  {| HardwareFolders := []; ToolsFolders := []; OtherLibrariesFolders := [];
     BuiltInLibrariesFolders := []; BuildPath := ""; BuildCachePath := "";
     Verbose := false; ArduinoAPIVersion := ""; DebugLevel := 0; Logger := HumanLogger;
     FQBN := ""; SketchLocation := ""; Libraries := []; ImportedLibraries := [];
     IncludeFolders := [] |}.

Definition set_HardwareFolders (v : list string) (c : Context) : Context :=
  {| HardwareFolders := v; ToolsFolders := ToolsFolders c;
     OtherLibrariesFolders := OtherLibrariesFolders c;
     BuiltInLibrariesFolders := BuiltInLibrariesFolders c; BuildPath := BuildPath c;
     BuildCachePath := BuildCachePath c; Verbose := Verbose c;
     ArduinoAPIVersion := ArduinoAPIVersion c; DebugLevel := DebugLevel c;
     Logger := Logger c; FQBN := FQBN c; SketchLocation := SketchLocation c;
     Libraries := Libraries c; ImportedLibraries := ImportedLibraries c;
     IncludeFolders := IncludeFolders c |}.

Definition set_ToolsFolders (v : list string) (c : Context) : Context :=
  {| HardwareFolders := HardwareFolders c; ToolsFolders := v;
     OtherLibrariesFolders := OtherLibrariesFolders c;
     BuiltInLibrariesFolders := BuiltInLibrariesFolders c; BuildPath := BuildPath c;
     BuildCachePath := BuildCachePath c; Verbose := Verbose c;
     ArduinoAPIVersion := ArduinoAPIVersion c; DebugLevel := DebugLevel c;
     Logger := Logger c; FQBN := FQBN c; SketchLocation := SketchLocation c;
     Libraries := Libraries c; ImportedLibraries := ImportedLibraries c;
     IncludeFolders := IncludeFolders c |}.

Definition set_OtherLibrariesFolders (v : list string) (c : Context) : Context :=
  {| HardwareFolders := HardwareFolders c; ToolsFolders := ToolsFolders c;
     OtherLibrariesFolders := v; BuiltInLibrariesFolders := BuiltInLibrariesFolders c;
     BuildPath := BuildPath c; BuildCachePath := BuildCachePath c; Verbose := Verbose c;
     ArduinoAPIVersion := ArduinoAPIVersion c; DebugLevel := DebugLevel c;
     Logger := Logger c; FQBN := FQBN c; SketchLocation := SketchLocation c;
     Libraries := Libraries c; ImportedLibraries := ImportedLibraries c;
     IncludeFolders := IncludeFolders c |}.

Definition set_BuiltInLibrariesFolders (v : list string) (c : Context) : Context :=
  {| HardwareFolders := HardwareFolders c; ToolsFolders := ToolsFolders c;
     OtherLibrariesFolders := OtherLibrariesFolders c; BuiltInLibrariesFolders := v;
     BuildPath := BuildPath c; BuildCachePath := BuildCachePath c; Verbose := Verbose c;
     ArduinoAPIVersion := ArduinoAPIVersion c; DebugLevel := DebugLevel c;
     Logger := Logger c; FQBN := FQBN c; SketchLocation := SketchLocation c;
     Libraries := Libraries c; ImportedLibraries := ImportedLibraries c;
     IncludeFolders := IncludeFolders c |}.

Definition set_BuildPath (v : string) (c : Context) : Context :=
  {| HardwareFolders := HardwareFolders c; ToolsFolders := ToolsFolders c;
     OtherLibrariesFolders := OtherLibrariesFolders c;
     BuiltInLibrariesFolders := BuiltInLibrariesFolders c; BuildPath := v;
     BuildCachePath := BuildCachePath c; Verbose := Verbose c;
     ArduinoAPIVersion := ArduinoAPIVersion c; DebugLevel := DebugLevel c;
     Logger := Logger c; FQBN := FQBN c; SketchLocation := SketchLocation c;
     Libraries := Libraries c; ImportedLibraries := ImportedLibraries c;
     IncludeFolders := IncludeFolders c |}.

Definition set_BuildCachePath (v : string) (c : Context) : Context :=
  {| HardwareFolders := HardwareFolders c; ToolsFolders := ToolsFolders c;
     OtherLibrariesFolders := OtherLibrariesFolders c;
     BuiltInLibrariesFolders := BuiltInLibrariesFolders c; BuildPath := BuildPath c;
     BuildCachePath := v; Verbose := Verbose c; ArduinoAPIVersion := ArduinoAPIVersion c;
     DebugLevel := DebugLevel c; Logger := Logger c; FQBN := FQBN c;
     SketchLocation := SketchLocation c; Libraries := Libraries c;
     ImportedLibraries := ImportedLibraries c; IncludeFolders := IncludeFolders c |}.

Definition set_Verbose (v : bool) (c : Context) : Context :=
  {| HardwareFolders := HardwareFolders c; ToolsFolders := ToolsFolders c;
     OtherLibrariesFolders := OtherLibrariesFolders c;
     BuiltInLibrariesFolders := BuiltInLibrariesFolders c; BuildPath := BuildPath c;
     BuildCachePath := BuildCachePath c; Verbose := v;
     ArduinoAPIVersion := ArduinoAPIVersion c; DebugLevel := DebugLevel c;
     Logger := Logger c; FQBN := FQBN c; SketchLocation := SketchLocation c;
     Libraries := Libraries c; ImportedLibraries := ImportedLibraries c;
     IncludeFolders := IncludeFolders c |}.

Definition set_ArduinoAPIVersion (v : string) (c : Context) : Context :=
  {| HardwareFolders := HardwareFolders c; ToolsFolders := ToolsFolders c;
     OtherLibrariesFolders := OtherLibrariesFolders c;
     BuiltInLibrariesFolders := BuiltInLibrariesFolders c; BuildPath := BuildPath c;
     BuildCachePath := BuildCachePath c; Verbose := Verbose c; ArduinoAPIVersion := v;
     DebugLevel := DebugLevel c; Logger := Logger c; FQBN := FQBN c;
     SketchLocation := SketchLocation c; Libraries := Libraries c;
     ImportedLibraries := ImportedLibraries c; IncludeFolders := IncludeFolders c |}.

Definition set_DebugLevel (v : Z) (c : Context) : Context :=
  {| HardwareFolders := HardwareFolders c; ToolsFolders := ToolsFolders c;
     OtherLibrariesFolders := OtherLibrariesFolders c;
     BuiltInLibrariesFolders := BuiltInLibrariesFolders c; BuildPath := BuildPath c;
     BuildCachePath := BuildCachePath c; Verbose := Verbose c;
     ArduinoAPIVersion := ArduinoAPIVersion c; DebugLevel := v; Logger := Logger c;
     FQBN := FQBN c; SketchLocation := SketchLocation c; Libraries := Libraries c;
     ImportedLibraries := ImportedLibraries c; IncludeFolders := IncludeFolders c |}.

Definition set_Logger (v : logger) (c : Context) : Context :=
  {| HardwareFolders := HardwareFolders c; ToolsFolders := ToolsFolders c;
     OtherLibrariesFolders := OtherLibrariesFolders c;
     BuiltInLibrariesFolders := BuiltInLibrariesFolders c; BuildPath := BuildPath c;
     BuildCachePath := BuildCachePath c; Verbose := Verbose c;
     ArduinoAPIVersion := ArduinoAPIVersion c; DebugLevel := DebugLevel c; Logger := v;
     FQBN := FQBN c; SketchLocation := SketchLocation c; Libraries := Libraries c;
     ImportedLibraries := ImportedLibraries c; IncludeFolders := IncludeFolders c |}.

Definition set_FQBN (v : string) (c : Context) : Context :=
  {| HardwareFolders := HardwareFolders c; ToolsFolders := ToolsFolders c;
     OtherLibrariesFolders := OtherLibrariesFolders c;
     BuiltInLibrariesFolders := BuiltInLibrariesFolders c; BuildPath := BuildPath c;
     BuildCachePath := BuildCachePath c; Verbose := Verbose c;
     ArduinoAPIVersion := ArduinoAPIVersion c; DebugLevel := DebugLevel c;
     Logger := Logger c; FQBN := v; SketchLocation := SketchLocation c;
     Libraries := Libraries c; ImportedLibraries := ImportedLibraries c;
     IncludeFolders := IncludeFolders c |}.

Definition set_SketchLocation (v : string) (c : Context) : Context :=
  {| HardwareFolders := HardwareFolders c; ToolsFolders := ToolsFolders c;
     OtherLibrariesFolders := OtherLibrariesFolders c;
     BuiltInLibrariesFolders := BuiltInLibrariesFolders c; BuildPath := BuildPath c;
     BuildCachePath := BuildCachePath c; Verbose := Verbose c;
     ArduinoAPIVersion := ArduinoAPIVersion c; DebugLevel := DebugLevel c;
     Logger := Logger c; FQBN := FQBN c; SketchLocation := v; Libraries := Libraries c;
     ImportedLibraries := ImportedLibraries c; IncludeFolders := IncludeFolders c |}.

Definition set_Libraries (v : list Library) (c : Context) : Context :=
  {| HardwareFolders := HardwareFolders c; ToolsFolders := ToolsFolders c;
     OtherLibrariesFolders := OtherLibrariesFolders c;
     BuiltInLibrariesFolders := BuiltInLibrariesFolders c; BuildPath := BuildPath c;
     BuildCachePath := BuildCachePath c; Verbose := Verbose c;
     ArduinoAPIVersion := ArduinoAPIVersion c; DebugLevel := DebugLevel c;
     Logger := Logger c; FQBN := FQBN c; SketchLocation := SketchLocation c;
     Libraries := v; ImportedLibraries := ImportedLibraries c;
     IncludeFolders := IncludeFolders c |}.

Definition set_ImportedLibraries (v : list Library) (c : Context) : Context :=
  {| HardwareFolders := HardwareFolders c; ToolsFolders := ToolsFolders c;
     OtherLibrariesFolders := OtherLibrariesFolders c;
     BuiltInLibrariesFolders := BuiltInLibrariesFolders c; BuildPath := BuildPath c;
     BuildCachePath := BuildCachePath c; Verbose := Verbose c;
     ArduinoAPIVersion := ArduinoAPIVersion c; DebugLevel := DebugLevel c;
     Logger := Logger c; FQBN := FQBN c; SketchLocation := SketchLocation c;
     Libraries := Libraries c; ImportedLibraries := v;
     IncludeFolders := IncludeFolders c |}.

Definition set_IncludeFolders (v : list string) (c : Context) : Context :=
  {| HardwareFolders := HardwareFolders c; ToolsFolders := ToolsFolders c;
     OtherLibrariesFolders := OtherLibrariesFolders c;
     BuiltInLibrariesFolders := BuiltInLibrariesFolders c; BuildPath := BuildPath c;
     BuildCachePath := BuildCachePath c; Verbose := Verbose c;
     ArduinoAPIVersion := ArduinoAPIVersion c; DebugLevel := DebugLevel c;
     Logger := Logger c; FQBN := FQBN c; SketchLocation := SketchLocation c;
     Libraries := Libraries c; ImportedLibraries := ImportedLibraries c;
     IncludeFolders := v |}.

End types.

(** ** The library index and the cache of analysed libraries *)

(** One entry of library_index.json. *)
Record indexLibrary := {
  LibraryName : string;
  Version : string;
  Author : string;
  Maintainer : string;
  License : string;
  Sentence : string;
  Paragraph : string;
  Website : string;
  Category : string;
  Architectures : list string;
  Types : list string;
  Requires : list string;
  URL : string;
  ArchiveFileName : string;
  Size : Z;
  Checksum : string;
  SupportLevel : string
}.

Definition set_Requires (v : list string) (l : indexLibrary) : indexLibrary :=
  {| LibraryName := LibraryName l; Version := Version l; Author := Author l;
     Maintainer := Maintainer l; License := License l; Sentence := Sentence l;
     Paragraph := Paragraph l; Website := Website l; Category := Category l;
     Architectures := Architectures l; Types := Types l; Requires := v; URL := URL l;
     ArchiveFileName := ArchiveFileName l; Size := Size l; Checksum := Checksum l;
     SupportLevel := SupportLevel l |}.

(** [indexOutput]: the list of entries; [indexLibrariesAnalyzed]: the map
    [Exists] from a library name to its analysed flag. *)
Record indexOutput := { Libraries : list indexLibrary }.
Record indexLibrariesAnalyzed := { Exists : gmap string bool }.

(** A directory entry as [ReadDir] lists it: a file, or a folder with its
    own listing ([None] when the folder cannot be read). *)
Inductive FsNode :=
| File (name : string)
| Dir (name : string) (listing : option (list FsNode)).

(** What one builder run reports: the libraries and include folders it adds
    to the context, and its error. *)
Record BuildReport := {
  imported : list types.Library;
  includes : list string;
  buildErr : option string
}.

(** ** Effects

    The process acts on the outside through the events below; [history]
    keeps them in order. What the outside answers is given by a [World]. *)
Inductive Event :=
| Stdout (text : string)
| Stderr (text : string)
| FlagUsage
| Symlink (oldname newname : string)
| Remove (path : string)
| RemoveAll (path : string)
| TempDir (prefix dir : string)
| WriteFile (path data : string)
| ParseHardware (c : types.Context)
| RunBuilder (c : types.Context) (r : BuildReport).

Record World := {
  (** [gohasissues.Unquote]: the unquoted string, or an error. *)
  Unquote : string -> string + string;
  (** [os.Stat] and [utils.EnsureFolderExists] on the build path: an error, if any. *)
  Stat : string -> option string;
  EnsureFolderExists : string -> option string;
  (** [ioutil.ReadFile]: the content, or an error. *)
  ReadFile : string -> string + string;
  (** [ioutil.TempDir("", prefix)] after the events so far. *)
  newTempDir : list Event -> string -> string;
  (** [filepath.Abs]. *)
  Abs : string -> string;
  (** The libraries [builder.RunParseHardwareAndDumpBuildProperties] loads. *)
  loadLibraries : types.Context -> list types.Library;
  (** [builder.RunBuilder] on a context, after the events so far. *)
  runBuilder : list Event -> types.Context -> BuildReport;
  (** The listing of a folder by path, [None] when it cannot be read. *)
  readDir : string -> option (list FsNode);
  (** [textdistance.JaroWinklerDistance]. *)
  JaroWinklerDistance : string -> string -> float;
  (** [json.Unmarshal] into the two structures, [json.MarshalIndent] of them. *)
  unmarshalAnalyzed : string -> gmap string bool + string;
  unmarshalIndex : string -> list indexLibrary + string;
  marshalIndex : indexOutput -> string;
  marshalAnalyzed : indexLibrariesAnalyzed -> string
}.

(** The command line, as [flag.Parse] leaves it. *)
Record Flags := {
  hardwareFoldersFlag : list string;
  toolsFoldersFlag : list string;
  librariesBuiltInFoldersFlag : list string;
  librariesFoldersFlag : list string;
  librariesJsonPath : string;
  buildPathFlag : string;
  verboseFlag : bool;
  forceRebuild : bool;
  exampleFlag : bool;
  quietFlag : bool;
  debugLevelFlag : Z;
  loggerFlag : string
}.

(** The variables of [main], with the events so far. *)
Record Memory := {
  ctx : types.Context;
  indexJson : indexOutput;
  previousRun : indexLibrariesAnalyzed;
  history : list Event
}.

Definition set_ctx (v : types.Context) (m : Memory) : Memory :=
  {| ctx := v; indexJson := indexJson m; previousRun := previousRun m;
     history := history m |}.
Definition set_indexJson (v : indexOutput) (m : Memory) : Memory :=
  {| ctx := ctx m; indexJson := v; previousRun := previousRun m; history := history m |}.
Definition set_previousRun (v : indexLibrariesAnalyzed) (m : Memory) : Memory :=
  {| ctx := ctx m; indexJson := indexJson m; previousRun := v; history := history m |}.
Definition set_history (v : list Event) (m : Memory) : Memory :=
  {| ctx := ctx m; indexJson := indexJson m; previousRun := previousRun m; history := v |}.

Definition initial : Memory :=
  {| ctx := types.empty; indexJson := {| Libraries := [] |};
     previousRun := {| Exists := ∅ |}; history := [] |}.

(** ** The monad of [main]: state, with a panic or [os.Exit] ending the run *)

Inductive Abort :=
| Panic (msg : string)
| Exit (code : Z).

Definition Run (A : Type) : Type := Memory -> (A + Abort) * Memory.

#[global] Instance Run_ret : MRet Run := fun A a m => (inl a, m).
#[global] Instance Run_bind : MBind Run := fun A B f c m =>
  match c m with
  | (inl a, m') => f a m'
  | (inr e, m') => (inr e, m')
  end.

Definition get {A} (f : Memory -> A) : Run A := fun m => (inl (f m), m).
Definition modify (f : Memory -> Memory) : Run unit := fun m => (inl tt, f m).
Definition abort {A} (e : Abort) : Run A := fun m => (inr e, m).
Definition emit (e : Event) : Run unit :=
  modify (fun m => set_history (history m ++ [e]) m).
Definition modifyCtx (f : types.Context -> types.Context) : Run unit :=
  modify (fun m => set_ctx (f (ctx m)) m).
Definition when (b : bool) (c : Run unit) : Run unit := if b then c else mret tt.

(** A [for ... range] loop over a list. *)
Fixpoint forEach {A} (l : list A) (body : A -> Run unit) : Run unit :=
  match l with
  | [] => mret tt
  | x :: l' => body x ;; forEach l' body
  end.

(** A [for ... range] loop that carries local variables. *)
Fixpoint foldRun {A S} (l : list A) (body : S -> A -> Run S) (s : S) : Run S :=
  match l with
  | [] => mret s
  | x :: l' => s' ← body s x; foldRun l' body s'
  end.

Definition nl : string := String (Ascii.ascii_of_nat 10) "".
Definition quote : string := String (Ascii.ascii_of_nat 34) "".

Definition Println (s : string) : Run unit := emit (Stdout (s +:+ nl)).
Definition Print (s : string) : Run unit := emit (Stdout s).
Definition Fprintln_Stderr (s : string) : Run unit := emit (Stderr (s +:+ nl)).
Definition os_Exit {A} (code : Z) : Run A := abort (Exit code).

(** [fmt.Print] of a slice of strings: the elements between brackets,
    separated by spaces. *)
Fixpoint spaced (l : list string) : string :=
  match l with
  | [] => ""
  | [x] => x
  | x :: l' => x +:+ " " +:+ spaced l'
  end.

Definition Sprint (l : list string) : string := "[" +:+ spaced l +:+ "]".

(** [utils.SliceContains]. *)
Fixpoint SliceContains (slice : list string) (target : string) : bool :=
  match slice with
  | [] => false
  | value :: slice' => String.eqb value target || SliceContains slice' target
  end.

Definition FLAG_HARDWARE : string := "hardware".
Definition FLAG_TOOLS : string := "tools".
Definition FLAG_LOGGER_MACHINE : string := "machine".

Section Extractor.

Variable W : World.
Variable F : Flags.

(** The two fatal exits of the flag handling; the error stack of the
    first is kept as the error's text. *)
Definition printCompleteError {A} (err : string) : Run A :=
  Fprintln_Stderr err ;; os_Exit 1.

Definition printErrorMessageAndFlagUsage {A} (err : string) : Run A :=
  Fprintln_Stderr err ;; emit FlagUsage ;; os_Exit 1.

Fixpoint toSliceOfUnquoted (value : list string) : list string + string :=
  match value with
  | [] => inl []
  | v :: value' =>
      match Unquote W v with
      | inr err => inr err
      | inl v' =>
          match toSliceOfUnquoted value' with
          | inr err => inr err
          | inl values => inl (v' :: values)
          end
      end
  end.

(** A folders flag into the context: an error of the unquoting is fatal,
    an empty list leaves the context as it is. *)
Definition foldersInto (flagValue : list string)
    (set : list string -> types.Context -> types.Context) : Run unit :=
  match toSliceOfUnquoted flagValue with
  | inr err => printCompleteError err
  | inl folders =>
      when (bool_decide (0 < length folders)%nat) (modifyCtx (set folders))
  end.

(** The command line into the context. *)
Definition parseFlags : Run unit :=
  when (String.eqb (librariesJsonPath F) "")
    (Println "You need to pass the path of a library_index.json" ;; os_Exit 1) ;;
  foldersInto (hardwareFoldersFlag F) types.set_HardwareFolders ;;
  hardware ← get (fun m => types.HardwareFolders (ctx m));
  when (bool_decide (length hardware = 0%nat))
    (printErrorMessageAndFlagUsage
       ("Parameter '" +:+ FLAG_HARDWARE +:+ "' is mandatory")) ;;
  foldersInto (toolsFoldersFlag F) types.set_ToolsFolders ;;
  tools ← get (fun m => types.ToolsFolders (ctx m));
  when (bool_decide (length tools = 0%nat))
    (printErrorMessageAndFlagUsage
       ("Parameter '" +:+ FLAG_TOOLS +:+ "' is mandatory")) ;;
  foldersInto (librariesFoldersFlag F) types.set_OtherLibrariesFolders ;;
  foldersInto (librariesBuiltInFoldersFlag F) types.set_BuiltInLibrariesFolders ;;
  buildPath ← match Unquote W (buildPathFlag F) with
              | inr err => printCompleteError err
              | inl buildPath => mret buildPath
              end;
  when (negb (String.eqb buildPath ""))
    (match Stat W buildPath with
     | Some err => Fprintln_Stderr err ;; os_Exit 1
     | None => mret tt
     end ;;
     match EnsureFolderExists W buildPath with
     | Some err => printCompleteError err
     | None => mret tt
     end) ;;
  modifyCtx (types.set_BuildPath buildPath) ;;
  let both := verboseFlag F && quietFlag F in
  let verbose := if both then false else verboseFlag F in
  let quiet := if both then false else quietFlag F in
  modifyCtx (types.set_Verbose verbose) ;;
  modifyCtx (types.set_ArduinoAPIVersion "10800") ;;
  when (-1 <? debugLevelFlag F) (modifyCtx (types.set_DebugLevel (debugLevelFlag F))) ;;
  modifyCtx (types.set_Logger
               (if quiet then types.NoopLogger
                else if String.eqb (loggerFlag F) FLAG_LOGGER_MACHINE
                     then types.MachineLogger
                     else types.HumanLogger)).

(** The libraries the builder finds, with the temporary board, and the
    folder of the build cache. *)
Definition populateLibraries : Run unit :=
  modifyCtx (types.set_FQBN "arduino:avr:uno") ;;
  c ← get ctx;
  emit (ParseHardware c) ;;
  modifyCtx (types.set_Libraries (loadLibraries W c)) ;;
  h ← get history;
  let buildCachePath := newTempDir W h "core_cache" in
  emit (TempDir "core_cache" buildCachePath) ;;
  modifyCtx (types.set_BuildCachePath buildCachePath).

(** The cache of the previous run: empty when the file cannot be read,
    fatal when its content does not decode. *)
Definition loadPreviousRun : Run unit :=
  modify (set_previousRun {| Exists := ∅ |}) ;;
  match ReadFile W "cached_results.json" with
  | inl prev =>
      match unmarshalAnalyzed W prev with
      | inr err => Println err ;; os_Exit 1
      | inl analyzed => modify (set_previousRun {| Exists := analyzed |})
      end
  | inr _ => mret tt
  end.

(** The index: a file that cannot be read decodes as the empty input. *)
Definition loadIndex : Run unit :=
  let dec := match ReadFile W (librariesJsonPath F) with
             | inl dec => dec
             | inr _ => ""
             end in
  match unmarshalIndex W dec with
  | inr err => Println err ;; os_Exit 1
  | inl libraries => modify (set_indexJson {| Libraries := libraries |})
  end.

(** [main] up to the loop. *)
Definition startup : Run unit :=
  parseFlags ;; populateLibraries ;; loadPreviousRun ;; loadIndex.

(** The goroutine waiting on the signal channel, from the moment a
    signal arrives: write the index as it then stands and exit. The
    encoding of the index (strings, slices of strings) does not fail, and
    its error branch, which only prints, is left out; so it is in [save]. *)
Definition interruptWatcher : Run unit :=
  index ← get indexJson;
  emit (WriteFile (librariesJsonPath F) (marshalIndex W index)) ;;
  Println "Exiting due to CTRL+C" ;;
  os_Exit 2.

(** *** The probe's compilation unit *)

(** [utils.FilterFilesWithExtensions(extension)] and [utils.FilterDirs]
    on one entry of a listing. *)
Definition fileWithExtension (extension : string) (n : FsNode) : bool :=
  match n with
  | File name => String.eqb (filepath.Ext name) extension
  | Dir _ _ => false
  end.

Definition nodeName (n : FsNode) : string :=
  match n with
  | File name => name
  | Dir name _ => name
  end.

(** [findFilesInFolder] on the folder [node] found at [sourcePath]: the
    files of the listing with the extension, then, when [recurse] is set,
    what each folder of the listing holds, in the order of the listing.
    [None] is the error of a folder that cannot be read. *)
Fixpoint findFilesInNode (extension : string) (recurse : bool)
    (sourcePath : string) (node : FsNode) : option (list string) :=
  match node with
  | File _ => None
  | Dir _ None => None
  | Dir _ (Some files) =>
      let sources :=
        map (fun file => filepath.Join [sourcePath; nodeName file])
            (filter (fileWithExtension extension) files) in
      if recurse then
        (fix folders (entries : list FsNode) (sources : list string)
           : option (list string) :=
           match entries with
           | [] => Some sources
           | File _ :: entries' => folders entries' sources
           | (Dir name _ as folder) :: entries' =>
               match findFilesInNode extension recurse
                       (filepath.Join [sourcePath; name]) folder with
               | None => None
               | Some otherSources => folders entries' (sources ++ otherSources)
               end
           end) files sources
      else Some sources
  end.

Definition findFilesInFolder (sourcePath extension : string) (recurse : bool)
  : option (list string) :=
  findFilesInNode extension recurse sourcePath
    (Dir (filepath.Base sourcePath) (readDir W sourcePath)).

(** The test of the loop of [includeHeadersFromLibraryFolder]. *)
Definition confident (library : types.Library) (header : string) : bool :=
  PrimFloat.ltb 0.9 (JaroWinklerDistance W (filepath.Base header) (types.Name library)).

Definition includeLine (header : string) : string :=
  "#include " +:+ quote +:+ filepath.Base header +:+ quote +:+ nl.

Definition includeStep (library : types.Library) (acc : string * Z) (header : string)
  : string * Z :=
  if confident library header
  then (fst acc +:+ includeLine header, snd acc + 1)
  else acc.

Definition includeHeadersFromLibraryFolder (library : types.Library) : string :=
  let headers :=
    match findFilesInFolder (types.Folder library) ".h" true with
    | Some headers => headers
    | None => []
    end in
  let '(temp, includedLibs) := fold_left (includeStep library) headers (nl, 0) in
  match headers with
  | first :: _ => if includedLibs =? 0 then temp +:+ includeLine first else temp
  | [] => temp
  end.

(** *** One library *)

Fixpoint indexJsonContainsFrom (idx : Z) (index : list indexLibrary)
    (name version : string) : Z :=
  match index with
  | [] => -1
  | lib :: index' =>
      if String.eqb (LibraryName lib) name && String.eqb (Version lib) version
      then idx
      else indexJsonContainsFrom (idx + 1) index' name version
  end.

Definition indexJsonContains (index : list indexLibrary) (name version : string) : Z :=
  indexJsonContainsFrom 0 index name version.

Definition setFQBN (fqbn : string) : Run unit := modifyCtx (types.set_FQBN fqbn).

(** The choice of the board: each test that holds overwrites [ctx.FQBN]. *)
Definition selectFQBN (library : types.Library) : Run unit :=
  let archs := types.Archs library in
  let name := types.Name library in
  first ← match archs with
          | [] => abort (Panic "index out of range")
          | first :: _ => mret first
          end;
  when (String.eqb first "*" || SliceContains archs "avr")
    (setFQBN "arduino:avr:micro") ;;
  when (strings.Contains name "Robot")
    (if strings.Contains name "Control"
     then setFQBN "arduino:avr:robotControl"
     else setFQBN "arduino:avr:robotMotor") ;;
  when (strings.Contains name "Adafruit" && strings.Contains name "Playground")
    (setFQBN "arduino:avr:circuitplay32u4cat") ;;
  when (SliceContains archs "sam") (setFQBN "arduino:sam:arduino_due_x_dbg") ;;
  when (SliceContains archs "samd") (setFQBN "arduino:samd:mkr1000") ;;
  when (SliceContains archs "arc32") (setFQBN "Intel:arc32:arduino_101") ;;
  when (SliceContains archs "esp8266")
    (setFQBN "esp8266:esp8266:nodemcuv2:CpuFrequency=80,UploadSpeed=115200,FlashSize=4M3M").

(** [ctx.ImportedLibraries = ctx.ImportedLibraries[:0]], and the same for
    the include folders. *)
Definition wipeUsedLibraries : Run unit :=
  modifyCtx (fun c => types.set_IncludeFolders [] (types.set_ImportedLibraries [] c)).

(** [builder.RunBuilder(ctx)]: the builder adds what it found to the
    context and returns its error. *)
Definition builder_RunBuilder : Run (option string) :=
  h ← get history;
  c ← get ctx;
  let r := runBuilder W h c in
  emit (RunBuilder c r) ;;
  modifyCtx (fun c =>
    types.set_IncludeFolders (types.IncludeFolders c ++ includes r)
      (types.set_ImportedLibraries (types.ImportedLibraries c ++ imported r) c)) ;;
  mret (buildErr r).

(** The body of the loops over [ctx.ImportedLibraries]; [acc] is
    [(deps, internal_deps)]. *)
Definition classify (library : types.Library) (acc : list string * list string)
    (dep : types.Library) : Run (list string * list string) :=
  let '(deps, internal_deps) := acc in
  if negb (String.eqb (types.RealName dep) (types.RealName library))
     && negb (SliceContains deps (types.RealName dep))
     && negb (SliceContains internal_deps (types.RealName dep))
  then
    others ← get (fun m => types.OtherLibrariesFolders (ctx m));
    match others with
    | [] => abort (Panic "index out of range")
    | root :: _ =>
        if strings.Contains (types.Folder dep) root
        then mret (deps ++ [types.RealName dep], internal_deps)
        else mret (deps, internal_deps ++ [types.RealName dep])
    end
  else mret acc.

Definition classifyImported (library : types.Library)
    (acc : list string * list string) : Run (list string * list string) :=
  importedLibraries ← get (fun m => types.ImportedLibraries (ctx m));
  foldRun importedLibraries (classify library) acc.

Definition printDependencies (subject : string) (acc : list string * list string)
  : Run unit :=
  Print (subject +:+ " depends on: ") ;;
  Print (Sprint (fst acc)) ;;
  Print " provided by lib manager and " ;;
  Print (Sprint (snd acc)) ;;
  Print " provided by cores or builtin".

(** The body of the loop over the examples; the state carried is
    [((deps, internal_deps), errors_examples)]. *)
Definition probeExample (library : types.Library)
    (st : (list string * list string) * list string) (example : string)
  : Run ((list string * list string) * list string) :=
  modifyCtx (types.set_SketchLocation example) ;;
  wipeUsedLibraries ;;
  err ← builder_RunBuilder;
  let errors_examples :=
    match err with
    | Some e => snd st ++ [e]
    | None => snd st
    end in
  acc ← classifyImported library (fst st);
  mret (acc, errors_examples).

(** The examples of a library: the sketches under its examples folder,
    none when the search fails. *)
Definition examplesOf (library : types.Library) : list string :=
  let libraryExamplesPath := filepath.Join [types.Folder library; "examples"] in
  match findFilesInFolder libraryExamplesPath ".ino" true with
  | Some examples => examples
  | None => []
  end.

(** The end of the line printed after the examples. *)
Definition examplesVerdict (fqbn : string) (errors_examples : list string) : string :=
  if bool_decide (0 < length errors_examples)%nat
  then " but " +:+ string_of_int (Z.of_nat (length errors_examples))
         +:+ " failed to compile on " +:+ fqbn
  else "".

Definition compileExamples (library : types.Library) (acc : list string * list string)
  : Run (list string * list string) :=
  st ← foldRun (examplesOf library) (probeExample library) (acc, []);
  printDependencies ("Examples for " +:+ types.Name library) (fst st) ;;
  fqbn ← get (fun m => types.FQBN (ctx m));
  Println (examplesVerdict fqbn (snd st)) ;;
  mret (fst st).

(** The end of the loop body: the dependencies into the index entry, the
    library into the cache. *)
Definition finalize (library : types.Library) (libIndex : Z) (deps : list string)
  : Run unit :=
  index ← get (fun m => Libraries (indexJson m));
  match index !! Z.to_nat libIndex with
  | None => abort (Panic "index out of range")
  | Some entry =>
      modify (set_indexJson
                {| Libraries := <[Z.to_nat libIndex := set_Requires deps entry]> index |})
  end ;;
  modify (fun m =>
    set_previousRun {| Exists := <[types.Name library := true]> (Exists (previousRun m)) |} m).

(** The probe of the library itself: the board, a sketch that includes the
    headers of the library, the builder on it, the two lists from what it
    imported, and the line about them. *)
Definition primaryProbe (library : types.Library) : Run (list string * list string) :=
  selectFQBN library ;;
  wipeUsedLibraries ;;
  h ← get history;
  let tempDir := newTempDir W h ("sketch" +:+ types.Name library) in
  emit (TempDir ("sketch" +:+ types.Name library) tempDir) ;;
  modifyCtx (types.set_SketchLocation (Abs W (tempDir +:+ "/sketch.ino"))) ;;
  let sketch :=
    includeHeadersFromLibraryFolder library
      +:+ nl +:+ "void loop(){}" +:+ nl +:+ "void setup(){}" +:+ nl in
  sketchLocation ← get (fun m => types.SketchLocation (ctx m));
  emit (WriteFile sketchLocation sketch) ;;
  err ← builder_RunBuilder;
  emit (Remove tempDir) ;;
  emit (RemoveAll tempDir) ;;
  acc ← classifyImported library ([], []);
  printDependencies ("Library " +:+ types.Name library) acc ;;
  fqbn ← get (fun m => types.FQBN (ctx m));
  match err with
  | Some _ => Println (" but failed to compile on " +:+ fqbn)
  | None => Println ""
  end ;;
  mret acc.

(** The probes of one library, between the making and the removal of the
    symbolic link that gives its folder the real name. *)
Definition collect (library : types.Library) : Run (list string * list string) :=
  let symlinkWithBestName :=
    filepath.Join [types.Folder library; ".."; types.RealName library] in
  let usingSymlink := negb (String.eqb symlinkWithBestName (types.Folder library)) in
  when usingSymlink
    (emit (Symlink (types.Folder library) symlinkWithBestName) ;;
     Println ("symlinking " +:+ types.Folder library +:+ " to " +:+ symlinkWithBestName)) ;;
  acc ← primaryProbe library;
  acc ← (if exampleFlag F then compileExamples library acc else mret acc);
  when usingSymlink (emit (RemoveAll symlinkWithBestName)) ;;
  mret acc.

(** The loop body after the two [continue]s. *)
Definition analyse (library : types.Library) (libIndex : Z) : Run unit :=
  acc ← collect library;
  finalize library libIndex (fst acc).

(** The body of the loop over [ctx.Libraries]. *)
Definition processLibrary (library : types.Library) : Run unit :=
  index ← get (fun m => Libraries (indexJson m));
  let libIndex :=
    indexJsonContains index (types.RealName library) (types.Version library) in
  if libIndex =? -1 then mret tt
  else
    analyzed ← get (fun m => Exists (previousRun m));
    if bool_decide (analyzed !! types.Name library = Some true) && negb (forceRebuild F)
    then mret tt
    else analyse library libIndex.

(** The end of [main]: both files are written. *)
Definition save : Run unit :=
  index ← get indexJson;
  emit (WriteFile (librariesJsonPath F) (marshalIndex W index)) ;;
  analyzed ← get previousRun;
  emit (WriteFile "cached_results.json" (marshalAnalyzed W analyzed)).

Definition main : Run unit :=
  startup ;;
  libraries ← get (fun m => types.Libraries (ctx m));
  forEach libraries processLibrary ;;
  save.

End Extractor.

(** * The vocabulary of the properties *)



(** The first library of a list that carries a name. *)
Definition firstNamed (name : string) (observed : list types.Library)
  : option types.Library :=
  List.find (fun dep => String.eqb (types.RealName dep) name) observed.



Definition reportOf (e : Event) : option BuildReport :=
  match e with
  | RunBuilder _ r => Some r
  | _ => None
  end.

Definition probedContext (e : Event) : option types.Context :=
  match e with
  | RunBuilder c _ => Some c
  | _ => None
  end.

(** The reports of the builder runs among some events, the libraries they
    imported, in order, and the errors of the runs that failed. *)
Definition reports (evs : list Event) : list BuildReport := omap reportOf evs.
Definition observed (evs : list Event) : list types.Library :=
  concat (map imported (reports evs)).
Definition failures (evs : list Event) : list string := omap buildErr (reports evs).
(** The sketches and boards the builder was run on. *)
Definition sketches (evs : list Event) : list string :=
  map types.SketchLocation (omap probedContext evs).
Definition boards (evs : list Event) : list string :=
  map types.FQBN (omap probedContext evs).

(** What a step of the loop body leaves alone. *)
Record Unchanged (m m' : Memory) : Prop := {
  same_others : types.OtherLibrariesFolders (ctx m') = types.OtherLibrariesFolders (ctx m);
  same_index : indexJson m' = indexJson m;
  same_analyzed : previousRun m' = previousRun m
}.

(** A library of another name among the imported ones. *)
Definition foreign (library : types.Library) (importedLibraries : list types.Library)
  : bool :=
  existsb (fun dep => negb (String.eqb (types.RealName dep) (types.RealName library)))
    importedLibraries.

(** The tests of [selectFQBN] with the boards they select, in the order of
    the code. *)
Definition rules (library : types.Library) : list (bool * string) :=
  let archs := types.Archs library in
  let name := types.Name library in
  [ (match archs with first :: _ => String.eqb first "*" | [] => false end
     || SliceContains archs "avr", "arduino:avr:micro");
    (strings.Contains name "Robot" && strings.Contains name "Control",
     "arduino:avr:robotControl");
    (strings.Contains name "Robot" && negb (strings.Contains name "Control"),
     "arduino:avr:robotMotor");
    (strings.Contains name "Adafruit" && strings.Contains name "Playground",
     "arduino:avr:circuitplay32u4cat");
    (SliceContains archs "sam", "arduino:sam:arduino_due_x_dbg");
    (SliceContains archs "samd", "arduino:samd:mkr1000");
    (SliceContains archs "arc32", "Intel:arc32:arduino_101");
    (SliceContains archs "esp8266",
     "esp8266:esp8266:nodemcuv2:CpuFrequency=80,UploadSpeed=115200,FlashSize=4M3M") ].

(** Last match wins: the board of the last rule that matches, and
    [fallback] when none does. *)
Definition lastMatch (fallback : string) (table : list (bool * string)) : string :=
  fold_left (fun (chosen : string) (rule : bool * string) =>
               if fst rule then snd rule else chosen) table fallback.

(** The board [main] sets before the loop. *)
Definition defaultFQBN : string := "arduino:avr:uno".



(** [always R E c]: from every memory, [c] ends, normally or not, in a
    memory related to it by [R], and when it aborts the abort satisfies [E]. *)
Definition always {A} (R : Memory -> Memory -> Prop) (E : Abort -> Prop) (c : Run A)
  : Prop :=
  forall m, R m (snd (c m)) /\ (forall e, fst (c m) = inr e -> E e).

(** No builder run between two memories. *)
Definition Quiet (m m' : Memory) : Prop := reports (history m') = reports (history m).

(** The flags of the cache that are set stay set. *)
Definition CacheGrows (m m' : Memory) : Prop :=
  forall name, Exists (previousRun m) !! name = Some true ->
               Exists (previousRun m') !! name = Some true.

(** The aborts of [main] outside the classification: [os.Exit(1)]. *)
Definition exitsOne (e : Abort) : Prop := e = Exit 1.
(** An exit, if any, is [os.Exit(1)]; a panic is no exit. *)
Definition exitsOnlyOne (e : Abort) : Prop := forall code, e = Exit code -> code = 1.


(** The position of the library in the index of a memory. *)
Definition positionOf (library : types.Library) (m : Memory) : Z :=
  indexJsonContains (Libraries (indexJson m)) (types.RealName library)
    (types.Version library).




(** The board of the context is the same in two memories. *)
Definition SameBoard (m m' : Memory) : Prop :=
  types.FQBN (ctx m') = types.FQBN (ctx m).

(** The include lines of a list of headers, one after the other. *)
Fixpoint includeLines (chosen : list string) : string :=
  match chosen with
  | [] => ""
  | header :: chosen' => includeLine header +:+ includeLines chosen'
  end.

Definition isDir (n : FsNode) : bool :=
  match n with
  | File _ => false
  | Dir _ _ => true
  end.

(** The headers found under the folder of the library, none when the
    search fails. *)
Definition headersOf (W : World) (library : types.Library) : list string :=
  match findFilesInFolder W (types.Folder library) ".h" true with
  | Some headers => headers
  | None => []
  end.

(** The headers the sketch includes: the confident ones, or the first
    header when there is a header and none is confident. *)
Definition chosenHeaders (W : World) (library : types.Library) : list string :=
  match filter (fun h => confident W library h) (headersOf W library),
        headersOf W library with
  | [], first :: _ => [first]
  | confidentOnes, _ => confidentOnes
  end.

(** Any two memories. *)
Definition Anything (m m' : Memory) : Prop := True.

(** What the process printed on its standard output. *)
Definition printed (evs : list Event) : list string :=
  omap (fun e => match e with Stdout text => Some text | _ => None end) evs.

(** ** Scenarios

    Small worlds on which the theorems below are instantiated. *)

Definition mkLibrary (name folder : string) (archs : list string) : types.Library :=
  {| types.Name := name; types.RealName := name; types.Version := "1.0.0";
     types.Folder := folder; types.Archs := archs |}.

Definition mkEntry (name : string) (requires : list string) : indexLibrary :=
  {| LibraryName := name; Version := "1.0.0"; Author := ""; Maintainer := "";
     License := ""; Sentence := ""; Paragraph := ""; Website := ""; Category := "";
     Architectures := []; Types := []; Requires := requires; URL := "";
     ArchiveFileName := ""; Size := 0; Checksum := ""; SupportLevel := "" |}.

Definition mkReport (libraries : list types.Library) (err : option string) : BuildReport :=
  {| imported := libraries; includes := []; buildErr := err |}.

(** A world with the given libraries and folders, whose builder answers by
    the sketch it is run on, and whose index holds the named entries; the
    cache file is absent. *)
Definition mkWorld (libraries : list types.Library)
    (folders : string -> option (list FsNode))
    (builder : string -> BuildReport) (index : list indexLibrary) : World :=
  {| Unquote := inl;
     Stat := fun _ => None;
     EnsureFolderExists := fun _ => None;
     ReadFile := fun path =>
       if String.eqb path "library_index.json" then inl "index" else inr "no such file";
     newTempDir := fun _ prefix => "/tmp/" +:+ prefix;
     Abs := fun path => path;
     loadLibraries := fun _ => libraries;
     runBuilder := fun _ c => builder (types.SketchLocation c);
     readDir := folders;
     JaroWinklerDistance := fun a b =>
       if String.eqb a (b +:+ ".h") then 1%float else 0%float;
     unmarshalAnalyzed := fun _ => inr "unexpected end of JSON input";
     unmarshalIndex := fun _ => inl index;
     marshalIndex := fun _ => "index";
     marshalAnalyzed := fun _ => "analyzed" |}.

Definition mkFlags (force examples : bool) (libraries : list string) : Flags :=
  {| hardwareFoldersFlag := ["/hardware"]; toolsFoldersFlag := ["/tools"];
     librariesBuiltInFoldersFlag := []; librariesFoldersFlag := libraries;
     librariesJsonPath := "library_index.json"; buildPathFlag := "";
     verboseFlag := false; forceRebuild := force; exampleFlag := examples;
     quietFlag := false; debugLevelFlag := 0; loggerFlag := "human" |}.

(** A memory in the loop: a context with the other-libraries folders and
    the imported libraries given, an index, a cache. *)
Definition inLoop (others : list string) (importedLibraries : list types.Library)
    (index : list indexLibrary) (analyzed : gmap string bool) : Memory :=
  {| ctx := types.set_ImportedLibraries importedLibraries
              (types.set_OtherLibrariesFolders others
                 (types.set_FQBN defaultFQBN types.empty));
     indexJson := {| Libraries := index |};
     previousRun := {| Exists := analyzed |};
     history := [] |}.

Definition noFolders : string -> option (list FsNode) := fun _ => None.

Definition Servo_managed : types.Library := mkLibrary "Servo" "/libs/Servo/src" ["avr"].
Definition Wire_bundled : types.Library := mkLibrary "Wire" "/hardware/avr/libraries/Wire" ["avr"].
Definition Robot : types.Library := mkLibrary "Robot" "/libs/Robot/src" ["avr"].


(** A library whose probe fails to compile. *)
Definition failing : World :=
  mkWorld [Robot] noFolders (fun _ => mkReport [Wire_bundled] (Some "exit status 1"))
    [mkEntry "Robot" []].


Definition Due : types.Library := mkLibrary "Scheduler" "/libs/Scheduler/src" ["sam"].
Definition Stm : types.Library := mkLibrary "STM32RTC" "/libs/STM32RTC/src" ["stm32"].

(** A run over a library for the Due and then one for another
    architecture that no rule knows. *)
Definition dueThenStm : World :=
  mkWorld [Due; Stm] noFolders (fun _ => mkReport [] None)
    [mkEntry "Scheduler" []; mkEntry "STM32RTC" []].

(** A library folder with two headers, neither close to the name of the
    library, and one without any header. *)
Definition distantHeaders : World :=
  mkWorld [Robot]
    (fun path =>
       if String.eqb path "/libs/Robot/src"
       then Some [Dir "extras" (Some [File "pins.h"]); File "util.h"; File "util.cpp"]
       else None)
    (fun _ => mkReport [] None) [mkEntry "Robot" []].

Definition noHeaders : World :=
  mkWorld [Robot]
    (fun path =>
       if String.eqb path "/libs/Robot/src"
       then Some [File "README.md"; Dir "examples" (Some [File "Blink.ino"])]
       else None)
    (fun _ => mkReport [] None) [mkEntry "Robot" []].

(** The world of [failing] with a cache file that holds no JSON. *)
Definition corruptCache : World :=
  {| Unquote := Unquote failing; Stat := Stat failing;
     EnsureFolderExists := EnsureFolderExists failing;
     ReadFile := fun path =>
       if String.eqb path "cached_results.json" then inl "{" else ReadFile failing path;
     newTempDir := newTempDir failing; Abs := Abs failing;
     loadLibraries := loadLibraries failing; runBuilder := runBuilder failing;
     readDir := readDir failing; JaroWinklerDistance := JaroWinklerDistance failing;
     unmarshalAnalyzed := unmarshalAnalyzed failing;
     unmarshalIndex := unmarshalIndex failing;
     marshalIndex := marshalIndex failing; marshalAnalyzed := marshalAnalyzed failing |}.

(** A library with two examples, the first of which does not compile. *)
Definition badExample : World :=
  mkWorld [Robot]
    (fun path =>
       if String.eqb path "/libs/Robot/src/examples"
       then Some [File "Blink.ino"; Dir "Sweep" (Some [File "Sweep.ino"])]
       else None)
    (fun sketch =>
       if strings.Contains sketch "Blink" then mkReport [] (Some "exit status 1")
       else if strings.Contains sketch "Sweep" then mkReport [Servo_managed] None
       else mkReport [] None)
    [mkEntry "Robot" []].

(** ** The vocabulary of the further properties *)

(** An entry of the index for a name and a version. *)
Definition entryFor (name version : string) (entry : indexLibrary) : Prop :=
  LibraryName entry = name /\ Version entry = version.

(** A folders flag over what the context holds: an empty flag keeps it. *)
Definition orKeep (given kept : list string) : list string :=
  match given with
  | [] => kept
  | _ => given
  end.

(** What [parseFlags] needs of the command line: the path of the index,
    flags that unquote to [hardware], [tools], [libraries], [builtIn] and
    [buildPath], a hardware and a tools folder, and a build path that is
    empty or exists. *)
Record Accepted (W : World) (F : Flags) (m : Memory)
    (hardware tools libraries builtIn : list string) (buildPath : string) : Prop := {
  accepted_json : librariesJsonPath F <> "";
  accepted_hardware : toSliceOfUnquoted W (hardwareFoldersFlag F) = inl hardware;
  accepted_hardware_given : orKeep hardware (types.HardwareFolders (ctx m)) <> [];
  accepted_tools : toSliceOfUnquoted W (toolsFoldersFlag F) = inl tools;
  accepted_tools_given : orKeep tools (types.ToolsFolders (ctx m)) <> [];
  accepted_libraries : toSliceOfUnquoted W (librariesFoldersFlag F) = inl libraries;
  accepted_builtIn : toSliceOfUnquoted W (librariesBuiltInFoldersFlag F) = inl builtIn;
  accepted_buildPath : Unquote W (buildPathFlag F) = inl buildPath;
  accepted_folder :
    buildPath <> "" -> Stat W buildPath = None /\ EnsureFolderExists W buildPath = None
}.

(** The context the command line gives, over the context [c]. *)
Definition parsed (F : Flags) (hardware tools libraries builtIn : list string)
    (buildPath : string) (c : types.Context) : types.Context :=
  {| types.HardwareFolders := orKeep hardware (types.HardwareFolders c);
     types.ToolsFolders := orKeep tools (types.ToolsFolders c);
     types.OtherLibrariesFolders := orKeep libraries (types.OtherLibrariesFolders c);
     types.BuiltInLibrariesFolders := orKeep builtIn (types.BuiltInLibrariesFolders c);
     types.BuildPath := buildPath;
     types.BuildCachePath := types.BuildCachePath c;
     types.Verbose := verboseFlag F && negb (quietFlag F);
     types.ArduinoAPIVersion := "10800";
     types.DebugLevel :=
       if -1 <? debugLevelFlag F then debugLevelFlag F else types.DebugLevel c;
     types.Logger :=
       if quietFlag F && negb (verboseFlag F) then types.NoopLogger
       else if String.eqb (loggerFlag F) "machine" then types.MachineLogger
            else types.HumanLogger;
     types.FQBN := types.FQBN c;
     types.SketchLocation := types.SketchLocation c;
     types.Libraries := types.Libraries c;
     types.ImportedLibraries := types.ImportedLibraries c;
     types.IncludeFolders := types.IncludeFolders c |}.

(** [Since P m m']: the history of [m'] is that of [m] followed by events
    of which [P] holds. *)
Definition Since (P : list Event -> Prop) (m m' : Memory) : Prop :=
  exists evs, history m' = history m ++ evs /\ P evs.

(** A property of the events of a computation that holds of no event and
    of two runs in a row when it holds of each. *)
Class Additive (P : list Event -> Prop) : Prop := {
  additive_nil : P [];
  additive_app : forall evs1 evs2, P evs1 -> P evs2 -> P (evs1 ++ evs2)
}.

Definition isStdout (e : Event) : Prop :=
  match e with
  | Stdout _ => True
  | _ => False
  end.

(** The five events of the primary probe around its builder run, for the
    temporary folder made after the history [h]. *)
Definition probeEvents (W : World) (library : types.Library) (h : list Event)
    (c : types.Context) (r : BuildReport) : list Event :=
  let tempDir := newTempDir W h ("sketch" +:+ types.Name library) in
  [ TempDir ("sketch" +:+ types.Name library) tempDir;
    WriteFile (Abs W (tempDir +:+ "/sketch.ino"))
      (includeHeadersFromLibraryFolder W library
         +:+ nl +:+ "void loop(){}" +:+ nl +:+ "void setup(){}" +:+ nl);
    RunBuilder c r;
    Remove tempDir;
    RemoveAll tempDir ].

(** Any abort. *)
Definition anyAbort (e : Abort) : Prop := True.

(** The temporary folders made and the paths given to [os.Remove]. *)
Definition created (evs : list Event) : list string :=
  omap (fun e => match e with TempDir _ dir => Some dir | _ => None end) evs.
Definition removed (evs : list Event) : list string :=
  omap (fun e => match e with Remove path => Some path | _ => None end) evs.

(** Every temporary folder made is given to [os.Remove], in the order of
    their making, and to [os.RemoveAll]. *)
Definition Tidy (evs : list Event) : Prop :=
  created evs = removed evs /\ forall dir, dir ∈ created evs -> RemoveAll dir ∈ evs.

(** A write to the index or to the cache of analysed libraries. *)
Definition isSave (F : Flags) (e : Event) : bool :=
  match e with
  | WriteFile path _ =>
      String.eqb path (librariesJsonPath F) || String.eqb path "cached_results.json"
  | _ => false
  end.

Definition saved (F : Flags) (evs : list Event) : list Event :=
  filter (fun e => isSave F e) evs.

(** [main] up to the writing of the two files. *)
Definition analyseAll (W : World) (F : Flags) : Run unit :=
  startup W F ;;
  libraries ← get (fun m => types.Libraries (ctx m));
  forEach libraries (processLibrary W F).

(** The entries of the index of two memories are the same but for their
    [Requires]. *)
Definition SameEntries (m m' : Memory) : Prop :=
  set_Requires [] <$> Libraries (indexJson m') = set_Requires [] <$> Libraries (indexJson m).

(** The path of the symbolic link of a library. *)
Definition symlinkOf (library : types.Library) : string :=
  filepath.Join [types.Folder library; ".."; types.RealName library].

(** An event that neither makes a symbolic link nor removes [link]. *)
Definition awayFrom (link : string) (e : Event) : Prop :=
  match e with
  | Symlink _ _ => False
  | RemoveAll path => path <> link
  | _ => True
  end.


(** A folder that cannot be read, or that holds one, at any depth. *)
Fixpoint unreadable (node : FsNode) : bool :=
  match node with
  | File _ => false
  | Dir _ None => true
  | Dir _ (Some files) => existsb unreadable files
  end.

(** The folder at a path cannot be read, or holds a folder that cannot. *)
Definition unreadableFolder (W : World) (path : string) : bool :=
  unreadable (Dir (filepath.Base path) (readDir W path)).

(** * Properties *)

Example Base_header : filepath.Base "libs/Servo/src/Servo.h" = "Servo.h".
Proof. reflexivity. Qed.

Example Ext_header : filepath.Ext "libs/Servo/src/Servo.h" = ".h".
Proof. reflexivity. Qed.

Example Join_parent : filepath.Join ["libs/Servo-1.0.0"; ".."; "Servo"] = "libs/Servo".
Proof. reflexivity. Qed.

Example Itoa_12 : Itoa 12 = "12".
Proof. reflexivity. Qed.

(** ** The two lists of dependencies *)




Lemma firstNamed_app (name : string) (l1 l2 : list types.Library) :
  firstNamed name (l1 ++ l2) =
  match firstNamed name l1 with
  | Some found => Some found
  | None => firstNamed name l2
  end.
Proof.
  unfold firstNamed. induction l1 as [|x l1 IH]; simpl.
  - reflexivity.
  - destruct (String.eqb (types.RealName x) name); [reflexivity | exact IH].
Qed.










(** ** What the events tell *)

Lemma reports_app (e1 e2 : list Event) : reports (e1 ++ e2) = reports e1 ++ reports e2.
Proof. apply omap_app. Qed.





Lemma Unchanged_refl (m : Memory) : Unchanged m m.
Proof. split; reflexivity. Qed.


Ltac unfold_run :=
  unfold mbind, Run_bind, mret, Run_ret, Println, Print, Fprintln_Stderr, os_Exit,
    emit, modifyCtx, modify, get, abort, when in *.

Section Classification.

Variable library : types.Library.



Lemma foldRun_classify_no_root (m : Memory) (importedLibraries : list types.Library) :
  types.OtherLibrariesFolders (ctx m) = [] ->
  foldRun importedLibraries (classify library) ([], []) m =
  if foreign library importedLibraries
  then (inr (Panic "index out of range"), m)
  else (inl ([], []), m).
Proof.
  intros Hnone. induction importedLibraries as [|dep l IH]; simpl; [reflexivity|].
  unfold mbind, Run_bind. unfold classify at 1. simpl.
  destruct (String.eqb (types.RealName dep) (types.RealName library)); simpl.
  - exact IH.
  - unfold_run. rewrite Hnone. reflexivity.
Qed.

End Classification.

(** ** The choice of the board as a rule table *)

Lemma set_FQBN_same (c : types.Context) : types.set_FQBN (types.FQBN c) c = c.
Proof. destruct c; reflexivity. Qed.

Lemma set_ctx_same (m : Memory) : set_ctx (ctx m) m = m.
Proof. destruct m; reflexivity. Qed.

Lemma when_setFQBN (b : bool) (fqbn : string) (m : Memory) :
  when b (setFQBN fqbn) m =
  (inl tt, set_ctx (types.set_FQBN (if b then fqbn else types.FQBN (ctx m)) (ctx m)) m).
Proof.
  destruct b; simpl; [reflexivity|].
  rewrite set_FQBN_same, set_ctx_same. reflexivity.
Qed.

Lemma bind_when_setFQBN {A} (b : bool) (fqbn : string) (k : Run A) (m : Memory) :
  (when b (setFQBN fqbn) ;; k) m =
  k (set_ctx (types.set_FQBN (if b then fqbn else types.FQBN (ctx m)) (ctx m)) m).
Proof. unfold mbind, Run_bind. rewrite when_setFQBN. reflexivity. Qed.

Lemma selectFQBN_lastMatch (library : types.Library) (m : Memory) :
  types.Archs library <> [] ->
  selectFQBN library m =
  (inl tt, set_ctx (types.set_FQBN (lastMatch (types.FQBN (ctx m)) (rules library)) (ctx m)) m).
Proof.
  intros Harchs. unfold selectFQBN, rules, lastMatch.
  destruct (types.Archs library) as [|arch archs] eqn:E; [contradiction|].
  generalize (arch :: archs). intros l.
  replace (if strings.Contains (types.Name library) "Control"
           then setFQBN "arduino:avr:robotControl"
           else setFQBN "arduino:avr:robotMotor")
    with (setFQBN (if strings.Contains (types.Name library) "Control"
                   then "arduino:avr:robotControl"
                   else "arduino:avr:robotMotor")).
  - unfold mbind at 1, Run_bind at 1, mret, Run_ret.
    rewrite !bind_when_setFQBN, when_setFQBN. destruct m as [c idx prev h]. simpl.
    destruct (strings.Contains (types.Name library) "Robot");
      destruct (strings.Contains (types.Name library) "Control"); reflexivity.
  - destruct (strings.Contains (types.Name library) "Control"); reflexivity.
Qed.

Lemma selectFQBN_no_archs (library : types.Library) (m : Memory) :
  types.Archs library = [] ->
  selectFQBN library m = (inr (Panic "index out of range"), m).
Proof. intros E. unfold selectFQBN. rewrite E. reflexivity. Qed.

(** ** The probes of one library *)

Ltac run_cbn :=
  cbv beta iota zeta delta
      [mbind Run_bind mret Run_ret Println Print Fprintln_Stderr os_Exit emit modifyCtx
       modify get abort when set_history set_ctx set_indexJson set_previousRun
       history ctx indexJson previousRun
       wipeUsedLibraries builder_RunBuilder printDependencies];
  cbn [app fst snd
       types.set_HardwareFolders types.set_ToolsFolders types.set_OtherLibrariesFolders
       types.set_BuiltInLibrariesFolders types.set_BuildPath types.set_BuildCachePath
       types.set_Verbose types.set_ArduinoAPIVersion types.set_DebugLevel
       types.set_Logger types.set_FQBN types.set_SketchLocation types.set_Libraries
       types.set_ImportedLibraries types.set_IncludeFolders
       types.HardwareFolders types.ToolsFolders types.OtherLibrariesFolders
       types.BuiltInLibrariesFolders types.BuildPath types.BuildCachePath
       types.Verbose types.ArduinoAPIVersion types.DebugLevel
       types.Logger types.FQBN types.SketchLocation types.Libraries
       types.ImportedLibraries types.IncludeFolders].

Section Probing.

Variable W : World.
Variable F : Flags.
Variable library : types.Library.






End Probing.





(** ** One library, from the two [continue]s to its entry in the index *)

Section Analyse.

Variable W : World.
Variable F : Flags.
Variable library : types.Library.


End Analyse.

(** ** What holds of every outcome of a computation *)

Section Always.

Variable R : Memory -> Memory -> Prop.
Variable E : Abort -> Prop.
Context {R_preorder : PreOrder R}.

Lemma always_ret {A} (a : A) : always R E (mret a).
Proof. intros m. split; [reflexivity | discriminate]. Qed.

Lemma always_get {A} (f : Memory -> A) : always R E (get f).
Proof. intros m. split; [reflexivity | discriminate]. Qed.

Lemma always_abort {A} (e : Abort) : E e -> always R E (@abort A e).
Proof. intros He m. split; [reflexivity | intros e' [= <-]; exact He]. Qed.

Lemma always_modify (f : Memory -> Memory) :
  (forall m, R m (f m)) -> always R E (modify f).
Proof. intros Hf m. split; [apply Hf | discriminate]. Qed.

Lemma always_bind {A B} (c : Run A) (f : A -> Run B) :
  always R E c -> (forall a, always R E (f a)) -> always R E (c ≫= f).
Proof.
  intros Hc Hf m. unfold mbind, Run_bind.
  destruct (Hc m) as [HR HE]. destruct (c m) as [[a|e] m1]; simpl in *.
  - destruct (Hf a m1) as [HR1 HE1]. split; [etransitivity; eassumption | exact HE1].
  - split; [exact HR | intros e' [= <-]; apply HE; reflexivity].
Qed.

Lemma always_when (b : bool) (c : Run unit) : always R E c -> always R E (when b c).
Proof. intros Hc. destruct b; [exact Hc | apply always_ret]. Qed.

Lemma always_forEach {A} (l : list A) (body : A -> Run unit) :
  (forall x, always R E (body x)) -> always R E (forEach l body).
Proof.
  intros Hbody. induction l as [|x l IH]; simpl.
  - apply always_ret.
  - apply always_bind; [apply Hbody | intros _; exact IH].
Qed.

Lemma always_foldRun {A S} (l : list A) (body : S -> A -> Run S) (s : S) :
  (forall s x, always R E (body s x)) -> always R E (foldRun l body s).
Proof.
  intros Hbody. revert s. induction l as [|x l IH]; intros s; simpl.
  - apply always_ret.
  - apply always_bind; [apply Hbody | intros s'; apply IH].
Qed.

End Always.

(** One step of a proof of [always]: through binds, conditionals and the
    matches of the code; what is left is about [modify] and [abort]. *)
Ltac preorder := try lazymatch goal with |- PreOrder _ => apply _ end.

Ltac always_step :=
  lazymatch goal with
  | |- always _ _ (_ ≫= _) => apply always_bind; preorder; [ | intros ?]
  | |- always _ _ (mret _) => apply always_ret; preorder
  | |- always _ _ (get _) => apply always_get; preorder
  | |- always _ _ (when _ _) => apply always_when; preorder
  | |- always _ _ (forEach _ _) => apply always_forEach; preorder; intros ?
  | |- always _ _ (foldRun _ _ _) => apply always_foldRun; preorder; intros ? ?
  | |- always _ _ (abort _) => apply always_abort; preorder
  | |- always _ _ (os_Exit _) => apply always_abort; preorder
  | |- always _ _ (modify _) => apply always_modify; intros ?
  | |- always _ _ (modifyCtx _) => apply always_modify; intros ?
  | |- always _ _ (setFQBN _) => apply always_modify; intros ?
  | |- always _ _ (emit _) => apply always_modify; intros ?
  | |- always _ _ (Println _) => apply always_modify; intros ?
  | |- always _ _ (Print _) => apply always_modify; intros ?
  | |- always _ _ (Fprintln_Stderr _) => apply always_modify; intros ?
  | |- always _ _ (match ?x with _ => _ end) => destruct x
  | |- always _ _ (if ?b then _ else _) => destruct b
  end.

#[global] Instance Quiet_preorder : PreOrder Quiet.
Proof. split; [intros m; reflexivity | intros m1 m2 m3 H1 H2; unfold Quiet in *; congruence]. Qed.

#[global] Instance CacheGrows_preorder : PreOrder CacheGrows.
Proof. split; [intros m name H; exact H | intros m1 m2 m3 H1 H2 name H; auto]. Qed.

Lemma Quiet_emit (e : Event) (m : Memory) :
  reportOf e = None -> Quiet m (set_history (history m ++ [e]) m).
Proof.
  intros He. unfold Quiet. simpl. rewrite reports_app. unfold reports at 2. simpl.
  rewrite He. apply app_nil_r.
Qed.

Ltac quiet := first [reflexivity | apply Quiet_emit; reflexivity].

Section Startup.

Variable W : World.
Variable F : Flags.

Lemma parseFlags_quiet : always Quiet exitsOne (parseFlags W F).
Proof.
  unfold parseFlags, foldersInto, printCompleteError, printErrorMessageAndFlagUsage.
  repeat always_step; quiet.
Qed.

Lemma populateLibraries_quiet : always Quiet exitsOne (populateLibraries W).
Proof. unfold populateLibraries. repeat always_step; quiet. Qed.

Lemma loadPreviousRun_quiet : always Quiet exitsOne (loadPreviousRun W).
Proof. unfold loadPreviousRun. repeat always_step; quiet. Qed.

Lemma loadIndex_quiet : always Quiet exitsOne (loadIndex W F).
Proof. unfold loadIndex. repeat always_step; quiet. Qed.

(** Up to the loop no library is probed, and the only way out is
    [os.Exit(1)]. *)
Lemma startup_quiet : always Quiet exitsOne (startup W F).
Proof.
  unfold startup. repeat always_step;
    auto using parseFlags_quiet, populateLibraries_quiet, loadPreviousRun_quiet,
      loadIndex_quiet.
Qed.

End Startup.

(** ** The cache over the loop *)

Lemma CacheGrows_finalize (name : string) (m : Memory) :
  CacheGrows m
    (set_previousRun {| Exists := <[name := true]> (Exists (previousRun m)) |} m).
Proof.
  intros other H. simpl. destruct (decide (name = other)) as [<- | Hne].
  - apply lookup_insert_eq.
  - rewrite lookup_insert_ne by exact Hne. exact H.
Qed.

Ltac cache_side :=
  first [ reflexivity
        | apply CacheGrows_finalize
        | intros ? ?; assumption
        | intros ? ?; discriminate ].

Section Loop.

Variable W : World.
Variable F : Flags.

Lemma collect_cache (library : types.Library) :
  always CacheGrows exitsOnlyOne (collect W F library).
Proof.
  unfold collect, primaryProbe, compileExamples, probeExample, classifyImported,
    classify, selectFQBN, printDependencies, wipeUsedLibraries, builder_RunBuilder.
  repeat always_step; cache_side.
Qed.

Lemma finalize_cache (library : types.Library) (libIndex : Z) (deps : list string) :
  always CacheGrows exitsOnlyOne (finalize library libIndex deps).
Proof. unfold finalize. repeat always_step; cache_side. Qed.

Lemma processLibrary_cache (library : types.Library) :
  always CacheGrows exitsOnlyOne (processLibrary W F library).
Proof.
  unfold processLibrary, analyse.
  repeat always_step; auto using collect_cache, finalize_cache; cache_side.
Qed.


End Loop.

(** ** C2 and C10: the classification of the imported libraries *)



Lemma bind_inr {A B} (c : Run A) (f : A -> Run B) (m m' : Memory) (e : Abort) :
  c m = (inr e, m') -> (c ≫= f) m = (inr e, m').
Proof. unfold mbind, Run_bind. intros ->. reflexivity. Qed.

Lemma bind_step {A B} (c : Run A) (f : A -> Run B) (m m' : Memory) (a : A) :
  c m = (inl a, m') -> (c ≫= f) m = f a m'.
Proof. unfold mbind, Run_bind. intros ->. reflexivity. Qed.

Section NoRoot.

Variable W : World.
Variable F : Flags.
Variable library : types.Library.

(** With no other-libraries folder, a primary probe whose builder run
    imports a library of another name ends in the panic of the
    classification; the index and the cache are as before. *)
Lemma primaryProbe_no_root (m : Memory) :
  types.Archs library <> [] ->
  types.OtherLibrariesFolders (ctx m) = [] ->
  (forall h c, foreign library (imported (runBuilder W h c)) = true) ->
  exists m',
    primaryProbe W library m = (inr (Panic "index out of range"), m') /\
    indexJson m' = indexJson m /\ previousRun m' = previousRun m.
Proof.
  intros Harchs Hnone Hforeign. unfold primaryProbe.
  unfold mbind at 1, Run_bind at 1. rewrite selectFQBN_lastMatch by exact Harchs.
  remember (lastMatch (types.FQBN (ctx m)) (rules library)) as board eqn:Hboard.
  clear Hboard.
  destruct m as [c idx prev h]. unfold classifyImported. run_cbn.
  rewrite foldRun_classify_no_root by exact Hnone.
  rewrite Hforeign. eexists. split; [reflexivity|]. split; reflexivity.
Qed.

Lemma analyse_no_root (m : Memory) (libIndex : Z) :
  types.Archs library <> [] ->
  types.OtherLibrariesFolders (ctx m) = [] ->
  (forall h c, foreign library (imported (runBuilder W h c)) = true) ->
  exists m',
    analyse W F library libIndex m = (inr (Panic "index out of range"), m') /\
    indexJson m' = indexJson m /\ previousRun m' = previousRun m.
Proof.
  intros Harchs Hnone Hforeign. unfold analyse, collect.
  set (symlinkWithBestName := filepath.Join _).
  set (usingSymlink := negb _).
  set (link := when usingSymlink (_ ;; _)).
  assert (Hlink : exists pre, link m = (inl tt, set_history (history m ++ pre) m)).
  { unfold link. destruct usingSymlink.
    - eexists. destruct m. run_cbn. rewrite <- app_assoc. reflexivity.
    - exists []. rewrite app_nil_r. destruct m; reflexivity. }
  destruct Hlink as (pre & Hlink). clearbody link.
  destruct (primaryProbe_no_root (set_history (history m ++ pre) m) Harchs Hnone Hforeign)
    as (m' & Hrun & Hidx & Hprev).
  exists m'. split; [|split; assumption].
  apply bind_inr. rewrite (bind_step _ _ _ _ _ Hlink). apply bind_inr. exact Hrun.
Qed.

End NoRoot.

Section ClassificationClaims.

Variable library : types.Library.


End ClassificationClaims.



(** C10. With no other-libraries folder configured, the classification
    of imported libraries that hold one of another name than the probed
    library's panics on [ctx.OtherLibrariesFolders[0]]: the library is put in
    neither list. So does the analysis of a library whose builder runs
    import such a library: it ends in the panic, before the record and the
    cache are written. *)
Theorem C10_no_other_libraries_folder_panics (W : World) (F : Flags)
    (library : types.Library) (m : Memory) :
  types.OtherLibrariesFolders (ctx m) = [] ->
  ((exists dep, dep ∈ types.ImportedLibraries (ctx m) /\
                types.RealName dep <> types.RealName library) ->
   classifyImported library ([], []) m = (inr (Panic "index out of range"), m)) /\
  (types.Archs library <> [] ->
   (forall h c, foreign library (imported (runBuilder W h c)) = true) ->
   forall libIndex, exists m',
     analyse W F library libIndex m = (inr (Panic "index out of range"), m') /\
     indexJson m' = indexJson m /\ previousRun m' = previousRun m).
Proof.
  intros Hnone. split.
  - intros (dep & Hin & Hne). unfold classifyImported. unfold_run.
    rewrite foldRun_classify_no_root by exact Hnone.
    replace (foreign library (types.ImportedLibraries (ctx m))) with true; [reflexivity|].
    symmetry. unfold foreign. apply existsb_exists. exists dep. split.
    + apply list_elem_of_In. exact Hin.
    + apply negb_true_iff, String.eqb_neq. exact Hne.
  - intros Harchs Hforeign libIndex.
    exact (analyse_no_root W F library m libIndex Harchs Hnone Hforeign).
Qed.

Lemma C10_witness :
  classifyImported Robot ([], []) (inLoop [] [Robot; Wire_bundled] [] ∅) =
    (inr (Panic "index out of range"), inLoop [] [Robot; Wire_bundled] [] ∅) /\
  exists m',
    analyse failing (mkFlags false false []) Robot 0
      (inLoop [] [Robot; Wire_bundled] [] ∅) =
      (inr (Panic "index out of range"), m').
Proof.
  destruct (C10_no_other_libraries_folder_panics failing (mkFlags false false []) Robot
              (inLoop [] [Robot; Wire_bundled] [] ∅) eq_refl) as [Hclassify Hanalyse].
  split.
  - apply Hclassify. exists Wire_bundled. split; [right; left | discriminate].
  - destruct (Hanalyse ltac:(discriminate) (fun _ _ => eq_refl) 0) as (m' & Hrun & _).
    exists m'. exact Hrun.
Defined.

(** The whole run without a libraries flag stops on the first library whose
    probe imports another. *)
Example main_no_root :
  fst (main failing (mkFlags false false []) initial) = inr (Panic "index out of range").
Proof. vm_compute. reflexivity. Qed.

(** ** The gate of the loop body *)



Section Gate.

Variable W : World.
Variable F : Flags.
Variable library : types.Library.

Lemma processLibrary_absent (m : Memory) :
  positionOf library m = -1 -> processLibrary W F library m = (inl tt, m).
Proof.
  intros H. unfold processLibrary. unfold_run. fold (positionOf library m). rewrite H. reflexivity.
Qed.



End Gate.

(** ** C1: the dependencies written back into the index *)






(** ** C3 and C8: the cache *)

Lemma bind_inl {A B} (c : Run A) (f : A -> Run B) (m m' : Memory) (b : B) :
  (c ≫= f) m = (inl b, m') ->
  exists a m1, c m = (inl a, m1) /\ f a m1 = (inl b, m').
Proof.
  unfold mbind, Run_bind. destruct (c m) as [[a|e] m1]; [eauto | discriminate].
Qed.


Section Cache.

Variable W : World.
Variable F : Flags.


End Cache.






(** ** C4: the choice of the board *)

#[global] Instance SameBoard_preorder : PreOrder SameBoard.
Proof.
  split; [intros m; reflexivity | intros m1 m2 m3 H1 H2; unfold SameBoard in *; congruence].
Qed.

Section Board.

Variable W : World.
Variable F : Flags.

Lemma loadPreviousRun_board : always SameBoard (fun _ => True) (loadPreviousRun W).
Proof. unfold loadPreviousRun. repeat always_step; first [reflexivity | exact I]. Qed.

Lemma loadIndex_board : always SameBoard (fun _ => True) (loadIndex W F).
Proof. unfold loadIndex. repeat always_step; first [reflexivity | exact I]. Qed.

(** The loop starts with the board [main] sets before it loads the
    libraries. *)
Lemma startup_board (m0 m1 : Memory) :
  startup W F m0 = (inl tt, m1) -> types.FQBN (ctx m1) = defaultFQBN.
Proof.
  unfold startup. intros H.
  apply bind_inl in H as (u1 & ma & _ & H).
  apply bind_inl in H as (u2 & mb & Hb & H).
  apply bind_inl in H as (u3 & mc & Hc & H).
  pose proof (proj1 (loadPreviousRun_board mb)) as H1. rewrite Hc in H1.
  pose proof (proj1 (loadIndex_board mc)) as H2. rewrite H in H2.
  unfold SameBoard in *. simpl in *. rewrite H2, H1.
  assert (Hpop : forall m, types.FQBN (ctx (snd (populateLibraries W m))) = defaultFQBN)
    by (intros [c idx prev h]; reflexivity).
  specialize (Hpop ma). rewrite Hb in Hpop. exact Hpop.
Qed.

End Board.

Lemma lastMatch_app (fallback : string) (t1 t2 : list (bool * string)) :
  lastMatch fallback (t1 ++ t2) = lastMatch (lastMatch fallback t1) t2.
Proof. unfold lastMatch. apply fold_left_app. Qed.

Lemma lastMatch_none (fallback : string) (table : list (bool * string)) :
  Forall (fun rule => fst rule = false) table -> lastMatch fallback table = fallback.
Proof.
  intros H. revert fallback. induction H as [|rule table Hrule _ IH]; intros fallback.
  - reflexivity.
  - unfold lastMatch in *. simpl. rewrite Hrule. apply IH.
Qed.

Lemma lastMatch_last (fallback : string) (before after : list (bool * string))
    (rule : bool * string) :
  fst rule = true -> Forall (fun r => fst r = false) after ->
  lastMatch fallback (before ++ rule :: after) = snd rule.
Proof.
  intros Hrule Hafter. rewrite lastMatch_app.
  change (rule :: after) with ([rule] ++ after). rewrite lastMatch_app.
  rewrite lastMatch_none by exact Hafter.
  unfold lastMatch. simpl. rewrite Hrule. reflexivity.
Qed.

(** C4 (as amended). For a library with at least one architecture entry the
    selector always leaves a board in the context: the board of the last
    rule of the table that matches, in the order architecture "*" or "avr",
    the name keywords, then "sam", "samd", "arc32" and "esp8266", so that a
    later matching rule overrides an earlier one; and, when no rule matches,
    the board the context held before, which is "arduino:avr:uno" when the
    loop starts and otherwise the board left by the library processed
    before. *)
Theorem C4_last_match_over_previous_board (W : World) (F : Flags)
    (library : types.Library) (m : Memory) :
  types.Archs library <> [] ->
  selectFQBN library m =
    (inl tt,
     set_ctx (types.set_FQBN (lastMatch (types.FQBN (ctx m)) (rules library)) (ctx m)) m) /\
  (forall before rule after,
     rules library = before ++ rule :: after ->
     fst rule = true -> Forall (fun r => fst r = false) after ->
     lastMatch (types.FQBN (ctx m)) (rules library) = snd rule) /\
  (Forall (fun r => fst r = false) (rules library) ->
   lastMatch (types.FQBN (ctx m)) (rules library) = types.FQBN (ctx m)) /\
  (forall m0 m1, startup W F m0 = (inl tt, m1) -> types.FQBN (ctx m1) = defaultFQBN).
Proof.
  intros Harchs. split; [apply selectFQBN_lastMatch; exact Harchs|]. split; [|split].
  - intros before rule after -> Hrule Hafter. apply lastMatch_last; assumption.
  - apply lastMatch_none.
  - apply startup_board.
Qed.

Lemma C4_witness :
  selectFQBN Robot (inLoop ["/libs"] [] [] ∅) =
  (inl tt,
   set_ctx (types.set_FQBN "arduino:avr:robotMotor" (ctx (inLoop ["/libs"] [] [] ∅)))
     (inLoop ["/libs"] [] [] ∅)).
Proof.
  destruct (C4_last_match_over_previous_board dueThenStm (mkFlags false false ["/libs"])
              Robot (inLoop ["/libs"] [] [] ∅)) as (Hrun & _); [discriminate|].
  exact Hrun.
Defined.

(** C4, as stated, fails: the second library matches no rule, the table
    with the default first gives it "arduino:avr:uno", and the builder is
    run for it on the board of the Due. *)
Lemma C4_counterexample :
  boards (history (snd (main dueThenStm (mkFlags false false ["/libs"]) initial))) =
    ["arduino:sam:arduino_due_x_dbg"; "arduino:sam:arduino_due_x_dbg"] /\
  map (fun library => lastMatch defaultFQBN (rules library)) [Due; Stm] =
    ["arduino:sam:arduino_due_x_dbg"; "arduino:avr:uno"].
Proof. split; vm_compute; reflexivity. Qed.

(** ** C5: the headers of the sketch *)

Lemma append_assoc (s1 s2 s3 : string) : (s1 +:+ s2) +:+ s3 = s1 +:+ (s2 +:+ s3).
Proof.
  induction s1 as [|a s1 IH]; [reflexivity|].
  change (String a ((s1 +:+ s2) +:+ s3) = String a (s1 +:+ (s2 +:+ s3))).
  rewrite IH. reflexivity.
Qed.

Lemma append_empty_r (s : string) : s +:+ "" = s.
Proof.
  induction s as [|a s IH]; [reflexivity|].
  change (String a (s +:+ "") = String a s). rewrite IH. reflexivity.
Qed.

Section Headers.

Variable W : World.
Variable library : types.Library.

Lemma fold_includeStep (headers : list string) (temp : string) (n : Z) :
  fold_left (includeStep W library) headers (temp, n) =
  (temp +:+ includeLines (filter (fun h => confident W library h) headers),
   n + Z.of_nat (length (filter (fun h => confident W library h) headers))).
Proof.
  revert temp n. induction headers as [|header headers IH]; intros temp n.
  - simpl. rewrite append_empty_r, Z.add_0_r. reflexivity.
  - rewrite filter_cons. simpl fold_left. unfold includeStep at 2.
    destruct (confident W library header); simpl.
    + rewrite IH, append_assoc. f_equal. lia.
    + apply IH.
Qed.

Lemma includeHeaders_chosen :
  includeHeadersFromLibraryFolder W library
    = nl +:+ includeLines (chosenHeaders W library).
Proof.
  unfold includeHeadersFromLibraryFolder, chosenHeaders. fold (headersOf W library).
  rewrite fold_includeStep.
  destruct (headersOf W library) as [|first headers]; [reflexivity|].
  destruct (filter (fun h => confident W library h) (first :: headers)) as [|c cs].
  - simpl. rewrite !append_empty_r. reflexivity.
  - replace (0 + Z.of_nat (length (c :: cs)) =? 0) with false; [reflexivity|].
    symmetry. apply Z.eqb_neq. simpl length. lia.
Qed.

End Headers.

(** The loop of [findFilesInNode] over the folders of a listing. *)
Lemma findFilesInNode_listing (extension sourcePath name : string)
    (files : list FsNode) :
  findFilesInNode extension true sourcePath (Dir name (Some files)) =
  (otherSources ←
     mapM (fun folder =>
             findFilesInNode extension true
               (filepath.Join [sourcePath; nodeName folder]) folder)
          (filter (fun n => isDir n) files);
   Some (map (fun file => filepath.Join [sourcePath; nodeName file])
             (filter (fun n => fileWithExtension extension n) files)
           ++ concat otherSources)).
Proof.
  cbn -[filepath.Join].
  generalize (map (fun file => filepath.Join [sourcePath; nodeName file])
                (filter (fileWithExtension extension) files)).
  induction files as [|entry files IH]; intros sources.
  - cbn. rewrite app_nil_r. reflexivity.
  - destruct entry as [file|folder listing].
    + rewrite filter_cons_False by (intros []). exact (IH sources).
    + rewrite filter_cons_True by exact I.
      cbn -[findFilesInNode filepath.Join].
      destruct (findFilesInNode extension true
                  (filepath.Join [sourcePath; folder]) (Dir folder listing))
        as [otherSources|]; [|reflexivity].
      rewrite IH. cbn -[findFilesInNode filepath.Join].
      destruct (mapM _ (filter (fun n => isDir n) files)) as [rest|];
        cbn -[findFilesInNode filepath.Join]; [|reflexivity].
      rewrite app_assoc. reflexivity.
Qed.

(** C5 (as amended). The sketch is a newline followed by the include lines
    of the chosen headers. Every header found under the folder of the
    library (the files of a folder before those of its folders, the folders
    in the order of the listing) whose base name scores more than 0.9
    against the name of the library is chosen; when at least one header is
    found and none scores that high, the first header found is the one
    chosen; and when no header is found, none is included. *)
Theorem C5_headers_of_the_sketch (W : World) (library : types.Library) :
  includeHeadersFromLibraryFolder W library
    = nl +:+ includeLines (chosenHeaders W library) /\
  (forall h, h ∈ headersOf W library -> confident W library h = true ->
     h ∈ chosenHeaders W library) /\
  (forall first others,
     headersOf W library = first :: others ->
     (forall h, h ∈ headersOf W library -> confident W library h = false) ->
     chosenHeaders W library = [first]) /\
  (headersOf W library = [] ->
   chosenHeaders W library = [] /\ includeHeadersFromLibraryFolder W library = nl) /\
  (forall files, readDir W (types.Folder library) = Some files ->
     findFilesInFolder W (types.Folder library) ".h" true =
     (otherSources ←
        mapM (fun folder =>
                findFilesInNode ".h" true
                  (filepath.Join [types.Folder library; nodeName folder]) folder)
             (filter (fun n => isDir n) files);
      Some (map (fun file => filepath.Join [types.Folder library; nodeName file])
                (filter (fun n => fileWithExtension ".h" n) files)
              ++ concat otherSources))).
Proof.
  split; [apply includeHeaders_chosen|]. split; [|split; [|split]].
  - intros h Hin Hconf. unfold chosenHeaders.
    assert (Hf : h ∈ filter (fun h => confident W library h) (headersOf W library)).
    { apply list_elem_of_filter. split; [rewrite Hconf; exact I | exact Hin]. }
    destruct (filter (fun h => confident W library h) (headersOf W library)) as [|c cs].
    + inversion Hf.
    + destruct (headersOf W library); exact Hf.
  - intros first others Hheaders Hnone. unfold chosenHeaders.
    destruct (filter (fun h => confident W library h) (headersOf W library))
      as [|c cs] eqn:Hf; [rewrite Hheaders; reflexivity|].
    exfalso. assert (Hc : c ∈ c :: cs) by left. rewrite <- Hf in Hc.
    apply list_elem_of_filter in Hc as [Hconf Hin].
    rewrite (Hnone c Hin) in Hconf. exact Hconf.
  - intros Hnone. assert (Hchosen : chosenHeaders W library = []).
    { unfold chosenHeaders. rewrite Hnone. reflexivity. }
    split; [exact Hchosen|]. rewrite includeHeaders_chosen, Hchosen. reflexivity.
  - intros files Hfiles. unfold findFilesInFolder. rewrite Hfiles.
    apply findFilesInNode_listing.
Qed.

Lemma C5_witness :
  headersOf distantHeaders Robot
    = ["/libs/Robot/src/util.h"; "/libs/Robot/src/extras/pins.h"] /\
  chosenHeaders distantHeaders Robot = ["/libs/Robot/src/util.h"].
Proof.
  split; [vm_compute; reflexivity|].
  destruct (C5_headers_of_the_sketch distantHeaders Robot) as (_ & _ & Hfirst & _).
  apply (Hfirst "/libs/Robot/src/util.h" ["/libs/Robot/src/extras/pins.h"]).
  - vm_compute. reflexivity.
  - intros h Hin.
    replace (headersOf distantHeaders Robot)
      with ["/libs/Robot/src/util.h"; "/libs/Robot/src/extras/pins.h"] in Hin
      by (vm_compute; reflexivity).
    apply list_elem_of_In in Hin. simpl in Hin.
    destruct Hin as [<- | [<- | []]]; vm_compute; reflexivity.
Defined.

(** C5, as stated, fails: no header reaches the threshold, and the sketch
    includes no header, not exactly one. *)
Lemma C5_counterexample :
  headersOf noHeaders Robot = [] /\
  (forall h, h ∈ headersOf noHeaders Robot -> confident noHeaders Robot h = false) /\
  includeHeadersFromLibraryFolder noHeaders Robot = nl /\
  ~ exists first, includeHeadersFromLibraryFolder noHeaders Robot = nl +:+ includeLine first.
Proof.
  assert (Hnone : headersOf noHeaders Robot = []) by (vm_compute; reflexivity).
  assert (Hsketch : includeHeadersFromLibraryFolder noHeaders Robot = nl)
    by (vm_compute; reflexivity).
  split; [exact Hnone|]. split; [|split; [exact Hsketch|]].
  - intros h Hin. rewrite Hnone in Hin. inversion Hin.
  - intros (first & H). rewrite Hsketch in H. unfold includeLine in H.
    vm_compute in H. discriminate H.
Qed.

(** ** C6 and C7: the cache file at startup, the interrupt *)

Lemma always_weaken {A} (R R' : Memory -> Memory -> Prop) (E E' : Abort -> Prop)
    (c : Run A) :
  (forall m m', R m m' -> R' m m') -> (forall e, E e -> E' e) ->
  always R E c -> always R' E' c.
Proof. intros HR HE Hc m. destruct (Hc m) as [H1 H2]. split; auto. Qed.

#[global] Instance Anything_preorder : PreOrder Anything.
Proof. split; [intros m | intros m1 m2 m3 _ _]; exact I. Qed.

Section Process.

Variable W : World.
Variable F : Flags.

Lemma populateLibraries_ok (m : Memory) :
  exists m', populateLibraries W m = (inl tt, m').
Proof. exists (snd (populateLibraries W m)). destruct m as [c idx prev h]. reflexivity. Qed.

Lemma loadPreviousRun_absent (m : Memory) (err : string) :
  ReadFile W "cached_results.json" = inr err ->
  loadPreviousRun W m = (inl tt, set_previousRun {| Exists := ∅ |} m).
Proof. intros H. unfold loadPreviousRun. unfold_run. rewrite H. reflexivity. Qed.

Lemma loadPreviousRun_malformed (m : Memory) (prev err : string) :
  ReadFile W "cached_results.json" = inl prev ->
  unmarshalAnalyzed W prev = inr err ->
  loadPreviousRun W m =
  (inr (Exit 1),
   set_history (history m ++ [Stdout (err +:+ nl)]) (set_previousRun {| Exists := ∅ |} m)).
Proof. intros H1 H2. unfold loadPreviousRun. unfold_run. rewrite H1, H2. reflexivity. Qed.

(** With a cache file that does not decode [main] ends in [os.Exit(1)]
    before the loop, in the memory [startup] ends in. *)
Lemma main_malformed (m : Memory) (prev err : string) :
  ReadFile W "cached_results.json" = inl prev ->
  unmarshalAnalyzed W prev = inr err ->
  main W F m = (inr (Exit 1), snd (startup W F m)).
Proof.
  intros H1 H2.
  assert (Hstart : startup W F m = (inr (Exit 1), snd (startup W F m))).
  { unfold startup.
    destruct (parseFlags W F m) as [[u|e] ma] eqn:Hflags.
    - destruct (populateLibraries_ok ma) as [mb Hb].
      rewrite (bind_step _ _ _ _ _ Hflags), (bind_step _ _ _ _ _ Hb).
      rewrite (bind_inr _ _ _ _ _ (loadPreviousRun_malformed mb prev err H1 H2)).
      reflexivity.
    - pose proof (proj2 (parseFlags_quiet W F m) e) as He. rewrite Hflags in He.
      rewrite (bind_inr _ _ _ _ _ Hflags), (He eq_refl). reflexivity. }
  unfold main. apply bind_inr. exact Hstart.
Qed.

Lemma save_no_abort : always Anything exitsOnlyOne (save W F).
Proof. unfold save. repeat always_step; exact I. Qed.

(** [main] itself exits with code 1 only. *)
Lemma main_exits : always Anything exitsOnlyOne (main W F).
Proof.
  unfold main. repeat always_step.
  - apply always_weaken with (R := Quiet) (E := exitsOne);
      [intros; exact I | intros e -> code [= <-]; reflexivity | apply startup_quiet].
  - apply always_weaken with (R := CacheGrows) (E := exitsOnlyOne);
      [intros; exact I | auto | apply processLibrary_cache].
  - apply save_no_abort.
Qed.

End Process.

(** C6. When the cache file cannot be read the loading of the cache goes
    on with an empty cache; when it is read and does not decode, the
    loading and with it [main] end in [os.Exit(1)], and the builder has not
    been run on any library. *)
Theorem C6_cache_file_at_startup (W : World) (F : Flags) (m : Memory) :
  (forall err, ReadFile W "cached_results.json" = inr err ->
     loadPreviousRun W m = (inl tt, set_previousRun {| Exists := ∅ |} m)) /\
  (forall prev err,
     ReadFile W "cached_results.json" = inl prev ->
     unmarshalAnalyzed W prev = inr err ->
     fst (loadPreviousRun W m) = inr (Exit 1) /\
     fst (main W F m) = inr (Exit 1) /\
     reports (history (snd (main W F m))) = reports (history m)).
Proof.
  split.
  - intros err. apply loadPreviousRun_absent.
  - intros prev err H1 H2.
    rewrite (loadPreviousRun_malformed W m prev err H1 H2),
            (main_malformed W F m prev err H1 H2).
    repeat split. apply (proj1 (startup_quiet W F m)).
Qed.

Lemma C6_witness :
  loadPreviousRun failing initial = (inl tt, set_previousRun {| Exists := ∅ |} initial) /\
  fst (main corruptCache (mkFlags false false ["/libs"]) initial) = inr (Exit 1) /\
  reports (history (snd (main corruptCache (mkFlags false false ["/libs"]) initial))) = [].
Proof.
  split.
  - apply (proj1 (C6_cache_file_at_startup failing (mkFlags false false ["/libs"]) initial)
             "no such file").
    reflexivity.
  - apply (proj2 (C6_cache_file_at_startup corruptCache (mkFlags false false ["/libs"])
                    initial) "{" "unexpected end of JSON input"); reflexivity.
Defined.

(** C7. From whatever memory the signal finds, the watcher writes the index
    as it stands to the index file and ends the process with [os.Exit(2)];
    [main] itself never exits with a code other than 1, so the code of the
    interrupt is neither 0 nor the code of the fatal errors. *)
Theorem C7_interrupt_exit_code (W : World) (F : Flags) (m : Memory) :
  interruptWatcher W F m =
    (inr (Exit 2),
     set_history
       (history m ++ [WriteFile (librariesJsonPath F) (marshalIndex W (indexJson m));
                      Stdout ("Exiting due to CTRL+C" +:+ nl)]) m) /\
  (forall m0 code, fst (main W F m0) = inr (Exit code) -> code = 1) /\
  (forall m0 code, fst (startup W F m0) = inr (Exit code) -> code = 1) /\
  2 <> 0 /\ 2 <> 1.
Proof.
  split; [|split; [|split; [|split; discriminate]]].
  - destruct m as [c idx prev h]. unfold interruptWatcher. unfold_run. simpl.
    rewrite <- app_assoc. reflexivity.
  - intros m0 code H. exact (proj2 (main_exits W F m0) _ H code eq_refl).
  - intros m0 code H. pose proof (proj2 (startup_quiet W F m0) _ H) as He.
    injection He as ->. reflexivity.
Qed.

Lemma C7_witness :
  fst (interruptWatcher failing (mkFlags false false ["/libs"])
         (inLoop ["/libs"] [Wire_bundled] [mkEntry "Robot" []] ∅)) = inr (Exit 2) /\
  fst (main corruptCache (mkFlags false false ["/libs"]) initial) = inr (Exit 1).
Proof.
  destruct (C7_interrupt_exit_code failing (mkFlags false false ["/libs"])
              (inLoop ["/libs"] [Wire_bundled] [mkEntry "Robot" []] ∅)) as (Hrun & _).
  split; [rewrite Hrun; reflexivity|].
  destruct (C7_interrupt_exit_code corruptCache (mkFlags false false ["/libs"]) initial)
    as (_ & Hmain & _).
  destruct (fst (main corruptCache (mkFlags false false ["/libs"]) initial))
    as [u|[msg|code]] eqn:E; try (vm_compute in E; discriminate E).
  rewrite (Hmain initial code E). reflexivity.
Defined.

(** ** C9: the examples *)

(** For fewer than 128 failing examples the verdict holds the one byte
    whose code is their number, where [strconv.Itoa] would give its decimal
    digits. *)
Lemma examplesVerdict_rune (fqbn : string) (errors_examples : list string) :
  (0 < length errors_examples < 128)%nat ->
  examplesVerdict fqbn errors_examples =
  " but " +:+ String (Ascii.ascii_of_nat (length errors_examples)) ""
    +:+ " failed to compile on " +:+ fqbn.
Proof.
  intros Hn. unfold examplesVerdict.
  rewrite bool_decide_eq_true_2 by lia.
  unfold string_of_int, utf8.
  set (n := Z.of_nat (length errors_examples)).
  assert (Hz : 0 < n < 128) by (unfold n; lia).
  replace (n <? 0) with false by (symmetry; apply Z.ltb_ge; lia).
  replace (1114111 <? n) with false by (symmetry; apply Z.ltb_ge; lia).
  replace (55296 <=? n) with false by (symmetry; apply Z.leb_gt; lia).
  replace (n <? 128) with true by (symmetry; apply Z.ltb_lt; lia).
  simpl. unfold byte_of, n, Ascii.ascii_of_nat.
  rewrite <- nat_N_Z, N2Z.id. reflexivity.
Qed.

(** C9 (the code at the failing input). With one of two examples failing,
    the builder still runs on the example after it and the dependency
    found there is kept; the error is recorded; but the line printed after
    the examples holds the byte of code 1 where the number of failing
    examples, "1", is expected. *)
Theorem C9_failing_examples_count_as_rune :
  let m' := snd (main badExample (mkFlags false true ["/libs"]) initial) in
  sketches (history m') =
    ["/tmp/sketchRobot/sketch.ino"; "/libs/Robot/src/examples/Blink.ino";
     "/libs/Robot/src/examples/Sweep/Sweep.ino"] /\
  failures (history m') = ["exit status 1"] /\
  map Requires (Libraries (indexJson m')) = [["Servo"]] /\
  last (printed (history m')) =
    Some (" but " +:+ String (Ascii.ascii_of_nat 1) ""
            +:+ " failed to compile on arduino:avr:robotMotor" +:+ nl) /\
  string_of_int 1 <> Itoa 1.
Proof. vm_compute. repeat split. discriminate. Qed.

(** * Further properties of the run *)

#[global] Instance entryFor_dec (name version : string) (entry : indexLibrary) :
  Decision (entryFor name version entry).
Proof. unfold entryFor. apply _. Defined.

Lemma indexJsonContainsFrom_find (index : list indexLibrary) (name version : string) :
  forall idx,
  indexJsonContainsFrom idx index name version =
  match list_find (entryFor name version) index with
  | Some (i, _) => idx + Z.of_nat i
  | None => -1
  end.
Proof.
  induction index as [|lib index IH]; intros idx; simpl.
  - reflexivity.
  - destruct (decide (entryFor name version lib)) as [[Hn Hv]|Hno].
    + rewrite (proj2 (String.eqb_eq _ _) Hn), (proj2 (String.eqb_eq _ _) Hv). simpl. lia.
    + replace (String.eqb (LibraryName lib) name && String.eqb (Version lib) version)
        with false.
      * rewrite IH. destruct (list_find _ index) as [[i x]|]; simpl; lia.
      * symmetry. apply not_true_is_false. intros H. apply Hno.
        apply andb_true_iff in H as [H1 H2].
        split; apply String.eqb_eq; assumption.
Qed.

(** X1. [indexJsonContains] gives -1 exactly when no entry of the index
    has the name and the version; otherwise it gives the position of the
    first entry that has them, and no other: the result is [i] exactly when
    the entry at [i] matches and none before it does. The result is always
    between -1 and the last position. *)
Theorem indexJsonContains_first_match (index : list indexLibrary) (name version : string) :
  (indexJsonContains index name version = -1 <->
     forall entry, entry ∈ index -> ~ entryFor name version entry) /\
  (forall i : nat,
     indexJsonContains index name version = Z.of_nat i <->
     (exists entry, index !! i = Some entry /\ entryFor name version entry) /\
     (forall j earlier, (j < i)%nat -> index !! j = Some earlier ->
        ~ entryFor name version earlier)) /\
  -1 <= indexJsonContains index name version < Z.of_nat (length index).
Proof.
  unfold indexJsonContains. rewrite indexJsonContainsFrom_find.
  destruct (list_find (entryFor name version) index) as [[i x]|] eqn:E.
  - apply list_find_Some in E as (Hi & Hx & Hfirst).
    split; [|split].
    + split; [lia|]. intros Hnone. exfalso.
      apply (Hnone x); [eapply list_elem_of_lookup_2; eassumption | exact Hx].
    + intros k. split.
      * intros Hk. assert (k = i) as -> by lia. split; [eauto|].
        intros j y Hj Hy. exact (Hfirst j y Hy Hj).
      * intros [(y & Hy & Hmatch) Hearlier].
        destruct (Nat.lt_trichotomy k i) as [Hlt | [-> | Hgt]]; [|lia|].
        -- exfalso. exact (Hfirst k y Hy Hlt Hmatch).
        -- exfalso. exact (Hearlier i x Hgt Hi Hx).
    + apply lookup_lt_Some in Hi. lia.
  - apply list_find_None in E. split; [|split].
    + split; [|reflexivity]. intros _ entry Hin.
      exact (proj1 (Forall_forall _ _) E entry Hin).
    + intros k. split; [lia|]. intros [(y & Hy & Hmatch) _]. exfalso.
      apply (proj1 (Forall_forall _ _) E y); [|exact Hmatch].
      eapply list_elem_of_lookup_2; eassumption.
    + lia.
Qed.

Section Unquoting.

Variable W : World.

(** X2. [toSliceOfUnquoted] succeeds exactly when every value unquotes, and
    then gives the unquoted values in order; it fails exactly when some
    value does not unquote, with the error of the first such value. *)
Theorem toSliceOfUnquoted_all_or_first_error (value : list string) :
  (forall values,
     toSliceOfUnquoted W value = inl values <->
     Forall2 (fun v v' => Unquote W v = inl v') value values) /\
  (forall err,
     toSliceOfUnquoted W value = inr err <->
     exists before v after,
       value = before ++ v :: after /\
       Forall (fun u => exists u', Unquote W u = inl u') before /\
       Unquote W v = inr err).
Proof.
  induction value as [|v value [IHok IHerr]]; simpl.
  - split.
    + intros values. split.
      * intros [= <-]. constructor.
      * intros H. inversion H. reflexivity.
    + intros err. split; [discriminate|].
      intros (before & v & after & H & _). destruct before; discriminate.
  - destruct (Unquote W v) as [v'|e] eqn:Ev.
    + destruct (toSliceOfUnquoted W value) as [values'|e'] eqn:Erest.
      * split.
        -- intros values. split.
           ++ intros [= <-]. constructor; [exact Ev | apply IHok; reflexivity].
           ++ intros H. inversion H as [|? y ? ys Hy Hys]; subst.
              apply IHok in Hys. congruence.
        -- intros err. split; [discriminate|].
           intros (before & u & after & Heq & Hbefore & Hu).
           destruct before as [|b before]; simpl in Heq; injection Heq as -> ->.
           ++ congruence.
           ++ assert (H : inl values' = @inr (list string) string err); [|discriminate].
              apply IHerr. exists before, u, after. inversion Hbefore; subst. auto.
      * split.
        -- intros values. split; [discriminate|].
           intros H. inversion H as [|? y ? ys Hy Hys]; subst.
           apply IHok in Hys. discriminate.
        -- intros err. split.
           ++ intros [= <-]. destruct (proj1 (IHerr e') eq_refl)
                as (before & u & after & -> & Hbefore & Hu).
              exists (v :: before), u, after. split; [reflexivity|].
              split; [constructor; eauto | exact Hu].
           ++ intros (before & u & after & Heq & Hbefore & Hu).
              destruct before as [|b before]; simpl in Heq; injection Heq as -> ->.
              ** congruence.
              ** f_equal. assert (H : inr e' = @inr (list string) string err); [|congruence].
                 apply IHerr. exists before, u, after. inversion Hbefore; subst. auto.
    + split.
      * intros values. split; [discriminate|].
        intros H. inversion H; subst. congruence.
      * intros err. split.
        -- intros [= <-]. exists [], v, value. auto.
        -- intros (before & u & after & Heq & Hbefore & Hu).
           destruct before as [|b before]; simpl in Heq; injection Heq as -> ->.
           ++ congruence.
           ++ inversion Hbefore as [|? ? [u' Hb] ?]; subst. congruence.
Qed.

End Unquoting.

Section Flags.

Variable W : World.
Variable F : Flags.

Lemma foldersInto_run (flagValue : list string)
    (set : list string -> types.Context -> types.Context) (m : Memory) :
  foldersInto W flagValue set m =
  match toSliceOfUnquoted W flagValue with
  | inr err => (inr (Exit 1), set_history (history m ++ [Stderr (err +:+ nl)]) m)
  | inl [] => (inl tt, m)
  | inl folders => (inl tt, set_ctx (set folders (ctx m)) m)
  end.
Proof.
  unfold foldersInto, printCompleteError.
  destruct (toSliceOfUnquoted W flagValue) as [[|v folders]|err]; reflexivity.
Qed.

End Flags.

Ltac step_get :=
  lazymatch goal with
  | |- (get ?f ≫= _) ?m = _ => rewrite (bind_step (get f) _ m m (f m) eq_refl); cbv beta
  end.

Section Flags.

Variable W : World.
Variable F : Flags.

Lemma foldersInto_ok (flagValue folders : list string)
    (set : list string -> types.Context -> types.Context) (m : Memory) :
  toSliceOfUnquoted W flagValue = inl folders ->
  foldersInto W flagValue set m =
  (inl tt, set_ctx (match folders with [] => ctx m | _ => set folders (ctx m) end) m).
Proof.
  intros H. rewrite foldersInto_run, H. destruct folders; [|reflexivity].
  rewrite set_ctx_same. reflexivity.
Qed.

Lemma mandatory_ok (folders : list string) (name : string) (m : Memory) :
  folders <> [] ->
  when (bool_decide (length folders = 0%nat))
    (printErrorMessageAndFlagUsage ("Parameter '" +:+ name +:+ "' is mandatory")) m
  = (inl tt, m).
Proof.
  intros H. rewrite bool_decide_eq_false_2; [reflexivity|].
  destruct folders; [congruence | discriminate].
Qed.

Lemma buildPath_ok (buildPath : string) (m : Memory) :
  (buildPath <> "" -> Stat W buildPath = None /\ EnsureFolderExists W buildPath = None) ->
  when (negb (String.eqb buildPath ""))
    (match Stat W buildPath with
     | Some err => Fprintln_Stderr err ;; os_Exit 1
     | None => mret tt
     end ;;
     match EnsureFolderExists W buildPath with
     | Some err => printCompleteError err
     | None => mret tt
     end) m = (inl tt, m).
Proof.
  intros H. destruct (String.eqb buildPath "") eqn:E; [reflexivity|].
  apply String.eqb_neq in E. destruct (H E) as [-> ->]. reflexivity.
Qed.

Lemma bind_assoc {A B C} (c : Run A) (f : A -> Run B) (g : B -> Run C) (m : Memory) :
  ((c ≫= f) ≫= g) m = (c ≫= (fun a => f a ≫= g)) m.
Proof. unfold mbind, Run_bind. destruct (c m) as [[a|e] m1]; reflexivity. Qed.

Lemma parseFlags_accepts (m : Memory) (hardware tools libraries builtIn : list string)
    (buildPath : string) :
  Accepted W F m hardware tools libraries builtIn buildPath ->
  parseFlags W F m =
  (inl tt, set_ctx (parsed F hardware tools libraries builtIn buildPath (ctx m)) m).
Proof.
  intros [Hjson Hhw Hhw1 Htl Htl1 Hlb Hbi Hbp Hfolder].
  unfold parseFlags.
  apply String.eqb_neq in Hjson. rewrite Hjson.
  rewrite (bind_step _ _ m m tt) by reflexivity.
  rewrite (bind_step _ _ _ _ _ (foldersInto_ok _ _ _ _ Hhw)).
  set (m1 := set_ctx _ m).
  assert (H1 : types.HardwareFolders (ctx m1) <> [])
    by (unfold m1; destruct hardware; [exact Hhw1 | discriminate]).
  step_get. rewrite (bind_step _ _ _ _ _ (mandatory_ok _ _ _ H1)).
  rewrite (bind_step _ _ _ _ _ (foldersInto_ok _ _ _ _ Htl)).
  set (m2 := set_ctx _ m1).
  assert (H2 : types.ToolsFolders (ctx m2) <> []).
  { unfold m2, m1. destruct tools; [|discriminate].
    destruct hardware; exact Htl1. }
  step_get. rewrite (bind_step _ _ _ _ _ (mandatory_ok _ _ _ H2)).
  rewrite (bind_step _ _ _ _ _ (foldersInto_ok _ _ _ _ Hlb)).
  rewrite (bind_step _ _ _ _ _ (foldersInto_ok _ _ _ _ Hbi)).
  rewrite Hbp.
  set (m4 := set_ctx _ (set_ctx _ m2)).
  rewrite (bind_step (mret buildPath) _ m4 m4 buildPath eq_refl).
  rewrite (bind_step _ _ _ _ _ (buildPath_ok _ _ Hfolder)).
  unfold m4, m2, m1. clear.
  destruct m as [c idx prev h]. destruct c.
  unfold parsed, orKeep.
  destruct hardware, tools, libraries, builtIn, (verboseFlag F), (quietFlag F),
    (-1 <? debugLevelFlag F); reflexivity.
Qed.

Lemma foldersInto_inv (flagValue : list string)
    (set : list string -> types.Context -> types.Context) (m m' : Memory) (u : unit) :
  foldersInto W flagValue set m = (inl u, m') ->
  exists folders,
    toSliceOfUnquoted W flagValue = inl folders /\
    m' = set_ctx (match folders with [] => ctx m | _ => set folders (ctx m) end) m.
Proof.
  destruct (toSliceOfUnquoted W flagValue) as [folders|err] eqn:E.
  - rewrite (foldersInto_ok _ _ _ _ E). intros H. injection H as _ <-. eauto.
  - rewrite foldersInto_run, E. discriminate.
Qed.

Lemma mandatory_inv (folders : list string) (name : string) (m m' : Memory) (u : unit) :
  when (bool_decide (length folders = 0%nat))
    (printErrorMessageAndFlagUsage ("Parameter '" +:+ name +:+ "' is mandatory")) m
  = (inl u, m') ->
  folders <> [] /\ m' = m.
Proof.
  destruct folders; [discriminate|]. intros H. injection H as _ <-.
  split; [discriminate | reflexivity].
Qed.

Lemma buildPath_inv (buildPath : string) (m m' : Memory) (u : unit) :
  when (negb (String.eqb buildPath ""))
    (match Stat W buildPath with
     | Some err => Fprintln_Stderr err ;; os_Exit 1
     | None => mret tt
     end ;;
     match EnsureFolderExists W buildPath with
     | Some err => printCompleteError err
     | None => mret tt
     end) m = (inl u, m') ->
  (buildPath <> "" -> Stat W buildPath = None /\ EnsureFolderExists W buildPath = None)
  /\ m' = m.
Proof.
  destruct (String.eqb buildPath "") eqn:E.
  - intros H. injection H as _ <-. apply String.eqb_eq in E.
    split; [congruence | reflexivity].
  - destruct (Stat W buildPath); [discriminate|].
    destruct (EnsureFolderExists W buildPath); [discriminate|].
    intros H. injection H as _ <-. split; [split; reflexivity | reflexivity].
Qed.

Lemma parseFlags_accepted (m m' : Memory) :
  parseFlags W F m = (inl tt, m') ->
  exists hardware tools libraries builtIn buildPath,
    Accepted W F m hardware tools libraries builtIn buildPath.
Proof.
  unfold parseFlags. intros H.
  apply bind_inl in H as (u0 & m0 & H0 & H).
  assert (Hjson : librariesJsonPath F <> "" /\ m0 = m).
  { destruct (String.eqb (librariesJsonPath F) "") eqn:E; [discriminate|].
    apply String.eqb_neq in E. injection H0 as _ <-. auto. }
  destruct Hjson as [Hjson ->]. clear H0.
  apply bind_inl in H as (u1 & m1 & H1 & H).
  apply foldersInto_inv in H1 as (hardware & Hhw & ->).
  apply bind_inl in H as (hw & m1 & [= <- <-] & H).
  apply bind_inl in H as (u2 & m2 & H2 & H).
  apply mandatory_inv in H2 as [Hhw1 ->].
  apply bind_inl in H as (u3 & m3 & H3 & H).
  apply foldersInto_inv in H3 as (tools & Htl & ->).
  apply bind_inl in H as (tl & m3 & [= <- <-] & H).
  apply bind_inl in H as (u4 & m4 & H4 & H).
  apply mandatory_inv in H4 as [Htl1 ->].
  apply bind_inl in H as (u5 & m5 & H5 & H).
  apply foldersInto_inv in H5 as (libraries & Hlb & ->).
  apply bind_inl in H as (u6 & m6 & H6 & H).
  apply foldersInto_inv in H6 as (builtIn & Hbi & ->).
  apply bind_inl in H as (buildPath & m7 & H7 & H).
  destruct (Unquote W (buildPathFlag F)) as [bp|err] eqn:Hbp; [|discriminate].
  injection H7 as -> <-.
  apply bind_inl in H as (u8 & m8 & H8 & H).
  apply buildPath_inv in H8 as [Hfolder ->].
  exists hardware, tools, libraries, builtIn, buildPath.
  split; try assumption.
  - destruct hardware; [exact Hhw1 | discriminate].
  - destruct tools; [|discriminate]. destruct hardware; exact Htl1.
Qed.

End Flags.

#[global] Instance Since_preorder (P : list Event -> Prop) `{!Additive P} :
  PreOrder (Since P).
Proof.
  split.
  - intros m. exists []. rewrite app_nil_r. split; [reflexivity | apply additive_nil].
  - intros m1 m2 m3 (e1 & H1 & P1) (e2 & H2 & P2). exists (e1 ++ e2).
    rewrite H2, H1, app_assoc. split; [reflexivity | apply additive_app; assumption].
Qed.

Lemma Since_emit (P : list Event -> Prop) (e : Event) (m : Memory) :
  P [e] -> Since P m (set_history (history m ++ [e]) m).
Proof. intros H. exists [e]. split; [reflexivity | exact H]. Qed.

Lemma Since_same (P : list Event -> Prop) `{!Additive P} (m m' : Memory) :
  history m' = history m -> Since P m m'.
Proof. intros H. exists []. rewrite app_nil_r. split; [exact H | apply additive_nil]. Qed.

Section ReadOnly.

Variable library : types.Library.

(** The classification reads the memory and leaves it as it is, whatever
    its outcome. *)
Lemma classify_readonly (acc : list string * list string) (dep : types.Library)
    (m : Memory) :
  snd (classify library acc dep m) = m.
Proof.
  unfold classify. destruct acc as [deps internal_deps].
  destruct (negb _ && negb _ && negb _); [|reflexivity].
  unfold_run. destruct (types.OtherLibrariesFolders (ctx m)) as [|root rest]; [reflexivity|].
  destruct (strings.Contains _ _); reflexivity.
Qed.

Lemma foldRun_classify_readonly (importedLibraries : list types.Library) (m : Memory) :
  forall acc, snd (foldRun importedLibraries (classify library) acc m) = m.
Proof.
  induction importedLibraries as [|dep l IH]; intros acc; simpl; [reflexivity|].
  unfold mbind, Run_bind.
  pose proof (classify_readonly acc dep m) as H.
  destruct (classify library acc dep m) as [[acc'|e] m1]; simpl in H; subst m1.
  - apply IH.
  - reflexivity.
Qed.

Lemma classifyImported_readonly (acc : list string * list string) (m : Memory) :
  snd (classifyImported library acc m) = m.
Proof. unfold classifyImported. unfold_run. apply foldRun_classify_readonly. Qed.

End ReadOnly.

Section Events.

Variable W : World.
Variable F : Flags.
Variable library : types.Library.

(** The events of the primary probe, in every outcome: none when the
    choice of the board panics; else the five events around the builder
    run, followed by lines on the standard output. *)
Lemma primaryProbe_events (m : Memory) :
  exists outcome m' evs,
    primaryProbe W library m = (outcome, m') /\
    history m' = history m ++ evs /\
    indexJson m' = indexJson m /\
    previousRun m' = previousRun m /\
    (evs = [] \/
     exists c r out, evs = probeEvents W library (history m) c r ++ out /\ Forall isStdout out).
Proof.
  unfold primaryProbe. unfold mbind at 1, Run_bind at 1.
  destruct (types.Archs library) as [|arch archs] eqn:Harchs.
  - rewrite selectFQBN_no_archs by exact Harchs. do 2 eexists. exists [].
    split; [reflexivity|]. rewrite app_nil_r. auto.
  - rewrite selectFQBN_lastMatch by (rewrite Harchs; discriminate).
    remember (lastMatch (types.FQBN (ctx m)) (rules library)) as board eqn:Hboard.
    clear Hboard. destruct m as [c idx prev h]. run_cbn.
    match goal with
    | |- context [classifyImported library ([], []) ?m1] =>
        pose proof (classifyImported_readonly library ([], []) m1) as Hro;
        destruct (classifyImported library ([], []) m1) as [[acc|e] m2]
    end; simpl in Hro; subst m2.
    + match goal with
      | |- context [runBuilder W ?hh ?cc] => set (c1 := cc); set (r := runBuilder W hh c1)
      end.
      destruct (buildErr r); run_cbn;
        (do 3 eexists; split; [reflexivity|]; run_cbn;
         split; [rewrite <- !app_assoc; reflexivity|];
         split; [reflexivity|]; split; [reflexivity|];
         right; exists c1, r; eexists; split; [reflexivity|];
         repeat constructor).
    + run_cbn. do 3 eexists. split; [reflexivity|]. run_cbn.
      split; [rewrite <- !app_assoc; reflexivity|].
      split; [reflexivity|]. split; [reflexivity|].
      right. do 2 eexists. exists []. split; [reflexivity | constructor].
Qed.

Section Since.

Variable P : list Event -> Prop.
Context {P_additive : Additive P}.
Hypothesis P_probe : forall h c r out,
  Forall isStdout out -> P (probeEvents W library h c r ++ out).
Hypothesis P_Stdout : forall text, P [Stdout text].
Hypothesis P_RunBuilder : forall c r, P [RunBuilder c r].
Hypothesis P_Symlink : forall oldname newname, P [Symlink oldname newname].
Hypothesis P_RemoveAll : forall path, P [RemoveAll path].

Lemma primaryProbe_since : always (Since P) anyAbort (primaryProbe W library).
Proof.
  intros m. destruct (primaryProbe_events m) as (o & m' & evs & -> & Hh & _ & _ & Hevs).
  split; [|intros; exact I]. exists evs. split; [exact Hh|].
  destruct Hevs as [-> | (c & r & out & -> & Hout)].
  - apply additive_nil.
  - apply P_probe. exact Hout.
Qed.

Lemma compileExamples_since (acc : list string * list string) :
  always (Since P) anyAbort (compileExamples W library acc).
Proof.
  unfold compileExamples, probeExample, classifyImported, classify, printDependencies,
    wipeUsedLibraries, builder_RunBuilder.
  repeat always_step;
    first [ exact I | apply Since_same; [exact P_additive | reflexivity]
          | apply Since_emit; auto ].
Qed.

Lemma collect_since : always (Since P) anyAbort (collect W F library).
Proof.
  unfold collect.
  repeat always_step;
    first [ apply primaryProbe_since | apply compileExamples_since
          | apply Since_emit; auto ].
Qed.

Lemma processLibrary_since : always (Since P) anyAbort (processLibrary W F library).
Proof.
  unfold processLibrary, analyse, finalize.
  repeat always_step;
    first [ apply collect_since | exact I
          | apply Since_same; [exact P_additive | reflexivity] ].
Qed.

End Since.

End Events.

Lemma created_app (e1 e2 : list Event) : created (e1 ++ e2) = created e1 ++ created e2.
Proof. apply omap_app. Qed.

Lemma removed_app (e1 e2 : list Event) : removed (e1 ++ e2) = removed e1 ++ removed e2.
Proof. apply omap_app. Qed.

Lemma saved_app (F : Flags) (e1 e2 : list Event) :
  saved F (e1 ++ e2) = saved F e1 ++ saved F e2.
Proof. apply filter_app. Qed.

Lemma created_Stdout (out : list Event) : Forall isStdout out -> created out = [].
Proof.
  induction 1 as [|e out He _ IH]; [reflexivity|].
  destruct e; try contradiction. exact IH.
Qed.

Lemma removed_Stdout (out : list Event) : Forall isStdout out -> removed out = [].
Proof.
  induction 1 as [|e out He _ IH]; [reflexivity|].
  destruct e; try contradiction. exact IH.
Qed.


#[global] Instance Tidy_additive : Additive Tidy.
Proof.
  split.
  - split; [reflexivity|]. intros dir H. inversion H.
  - intros e1 e2 [H1 R1] [H2 R2]. split.
    + rewrite created_app, removed_app. congruence.
    + intros dir. rewrite created_app, !elem_of_app. intros [H|H]; auto.
Qed.

#[global] Instance unsaved_additive (F : Flags) : Additive (fun evs => saved F evs = []).
Proof.
  split; [reflexivity|]. intros e1 e2 H1 H2. rewrite saved_app, H1, H2. reflexivity.
Qed.

Section Folders.

Variable W : World.
Variable F : Flags.

Lemma Tidy_probe (library : types.Library) (h : list Event) (c : types.Context)
    (r : BuildReport) (out : list Event) :
  Forall isStdout out -> Tidy (probeEvents W library h c r ++ out).
Proof.
  intros Hout. split.
  - rewrite created_app, removed_app, (created_Stdout out), (removed_Stdout out)
      by exact Hout.
    reflexivity.
  - rewrite created_app, (created_Stdout out), app_nil_r by exact Hout.
    intros dir Hdir. apply elem_of_app. left.
    cbn in Hdir. apply list_elem_of_singleton in Hdir as ->.
    unfold probeEvents. do 4 right. left.
Qed.

Lemma loop_tidy (libraries : list types.Library) :
  always (Since Tidy) anyAbort (forEach libraries (processLibrary W F)).
Proof.
  apply always_forEach; [apply _|]. intros library.
  apply processLibrary_since; try apply _.
  - intros. apply Tidy_probe. assumption.
  - intros. split; [reflexivity|]. intros dir H. inversion H.
  - intros. split; [reflexivity|]. intros dir H. inversion H.
  - intros. split; [reflexivity|]. intros dir H. inversion H.
  - intros. split; [reflexivity|]. intros dir H. inversion H.
Qed.

Lemma populateLibraries_events (m : Memory) :
  exists c m',
    populateLibraries W m = (inl tt, m') /\
    history m' =
      history m ++ [ParseHardware c; TempDir "core_cache" (types.BuildCachePath (ctx m'))].
Proof.
  unfold populateLibraries. destruct m as [c idx prev h]. run_cbn.
  do 2 eexists. split; [reflexivity|]. run_cbn. rewrite <- app_assoc. reflexivity.
Qed.

Lemma loadPreviousRun_frame (m m' : Memory) :
  loadPreviousRun W m = (inl tt, m') -> history m' = history m /\ ctx m' = ctx m.
Proof.
  unfold loadPreviousRun. destruct m as [c idx prev h]. run_cbn.
  destruct (ReadFile W "cached_results.json") as [content|err].
  - destruct (unmarshalAnalyzed W content); [|discriminate].
    intros [= <-]. split; reflexivity.
  - intros [= <-]. split; reflexivity.
Qed.

Lemma loadIndex_frame (m m' : Memory) :
  loadIndex W F m = (inl tt, m') -> history m' = history m /\ ctx m' = ctx m.
Proof.
  unfold loadIndex. destruct (unmarshalIndex W _); [|discriminate].
  intros [= <-]. split; reflexivity.
Qed.

(** A startup that goes through prints nothing: its events are the
    parsing of the hardware and the making of the build cache folder. *)
Lemma startup_events (m m' : Memory) :
  startup W F m = (inl tt, m') ->
  exists c,
    history m' =
      history m ++ [ParseHardware c; TempDir "core_cache" (types.BuildCachePath (ctx m'))].
Proof.
  unfold startup. intros H.
  apply bind_inl in H as (u1 & m1 & H1 & H).
  destruct u1. pose proof H1 as Hacc.
  apply parseFlags_accepted in Hacc as (hw & tl & lb & bi & bp & Hacc).
  rewrite (parseFlags_accepts _ _ _ _ _ _ _ _ Hacc) in H1. injection H1 as <-.
  apply bind_inl in H as (u2 & m2 & H2 & H).
  apply bind_inl in H as (u3 & m3 & H3 & H).
  destruct (populateLibraries_events (set_ctx (parsed F hw tl lb bi bp (ctx m)) m))
    as (c & m2' & Hp & Hh).
  rewrite Hp in H2. injection H2 as _ <-.
  destruct u3. apply loadPreviousRun_frame in H3 as [Hh3 Hc3].
  apply loadIndex_frame in H as [Hh4 Hc4].
  exists c. rewrite Hh4, Hc4, Hh3, Hc3, Hh. reflexivity.
Qed.

Lemma main_analyseAll (m : Memory) :
  main W F m =
  match analyseAll W F m with
  | (inl _, m1) => save W F m1
  | (inr e, m1) => (inr e, m1)
  end.
Proof.
  unfold main, analyseAll. unfold mbind, Run_bind, get.
  destruct (startup W F m) as [[[]|e] m0]; [|reflexivity].
  destruct (forEach _ _ m0) as [[[]|e] m1]; reflexivity.
Qed.

Lemma save_run (m : Memory) :
  save W F m =
  (inl tt,
   set_history
     (history m ++ [WriteFile (librariesJsonPath F) (marshalIndex W (indexJson m));
                    WriteFile "cached_results.json" (marshalAnalyzed W (previousRun m))]) m).
Proof. unfold save. destruct m. run_cbn. rewrite <- app_assoc. reflexivity. Qed.


Section Unsaved.

Hypothesis sketch_not_index : forall h prefix,
  Abs W (newTempDir W h prefix +:+ "/sketch.ino") <> librariesJsonPath F.
Hypothesis sketch_not_cache : forall h prefix,
  Abs W (newTempDir W h prefix +:+ "/sketch.ino") <> "cached_results.json".


End Unsaved.

End Folders.



(** X10. In every outcome of the loop over the libraries, the temporary
    folders made are the paths given to [os.Remove], in the same order, and
    each is given to [os.RemoveAll]. Over a whole run that ends normally one
    temporary folder more is made than removed: the build cache folder
    "core_cache" of the startup. *)
Theorem temporary_folders (W : World) (F : Flags) :
  (forall libraries m, exists evs,
     history (snd (forEach libraries (processLibrary W F) m)) = history m ++ evs /\
     created evs = removed evs /\
     forall dir, dir ∈ created evs -> RemoveAll dir ∈ evs) /\
  (forall m m', main W F m = (inl tt, m') ->
     exists evs cache,
       history m' = history m ++ evs /\
       TempDir "core_cache" cache ∈ evs /\
       created evs = cache :: removed evs).
Proof.
  split.
  - intros libraries m. destruct (loop_tidy W F libraries m) as [(evs & Hh & Ht1 & Ht2) _].
    exists evs. auto.
  - intros m m'. rewrite main_analyseAll. unfold analyseAll.
    unfold mbind, Run_bind, get.
    destruct (startup W F m) as [[[]|e] m0] eqn:Hstart; [|discriminate].
    destruct (startup_events W F m m0 Hstart) as (c & Hh0).
    destruct (loop_tidy W F (types.Libraries (ctx m0)) m0) as [(evs & Hh & Ht1 & Ht2) _].
    destruct (forEach _ _ m0) as [[[]|e] m1]; [|discriminate].
    rewrite save_run. intros [= <-]. cbn [snd] in Hh.
    eexists. exists (types.BuildCachePath (ctx m0)).
    split; [cbn [history set_history]; rewrite Hh, Hh0, <- !app_assoc; reflexivity|].
    split.
    + right. left.
    + cbn [app]. change (created (ParseHardware c :: ?l)) with (created l).
      cbn. rewrite created_app, removed_app, Ht1. cbn. rewrite !app_nil_r. reflexivity.
Qed.

#[global] Instance SameEntries_preorder : PreOrder SameEntries.
Proof.
  split.
  - intros m. reflexivity.
  - intros m1 m2 m3 H1 H2. unfold SameEntries in *. congruence.
Qed.

Lemma set_Requires_twice (deps deps' : list string) (entry : indexLibrary) :
  set_Requires deps (set_Requires deps' entry) = set_Requires deps entry.
Proof. reflexivity. Qed.

Lemma finalize_run (library : types.Library) (libIndex : Z) (deps : list string)
    (m : Memory) :
  finalize library libIndex deps m =
  match Libraries (indexJson m) !! Z.to_nat libIndex with
  | None => (inr (Panic "index out of range"), m)
  | Some entry =>
      (inl tt,
       set_previousRun
         {| Exists := <[types.Name library := true]> (Exists (previousRun m)) |}
         (set_indexJson
            {| Libraries :=
                 <[Z.to_nat libIndex := set_Requires deps entry]> (Libraries (indexJson m)) |}
            m))
  end.
Proof.
  unfold finalize. unfold_run.
  destruct (Libraries (indexJson m) !! Z.to_nat libIndex); reflexivity.
Qed.

Lemma finalize_entries (library : types.Library) (libIndex : Z) (deps : list string) :
  always SameEntries anyAbort (finalize library libIndex deps).
Proof.
  intros m. rewrite finalize_run.
  destruct (Libraries (indexJson m) !! Z.to_nat libIndex) as [entry|] eqn:E.
  - split; [|discriminate]. unfold SameEntries. cbn.
    rewrite list_fmap_insert. rewrite set_Requires_twice.
    apply list_insert_id. rewrite list_lookup_fmap, E. reflexivity.
  - split; [reflexivity | intros; exact I].
Qed.

Lemma indexJsonContainsFrom_entries (index : list indexLibrary) (name version : string) :
  forall idx,
  indexJsonContainsFrom idx (set_Requires [] <$> index) name version =
  indexJsonContainsFrom idx index name version.
Proof.
  induction index as [|lib index IH]; intros idx; [reflexivity|].
  cbn. rewrite IH. reflexivity.
Qed.

Section Entries.

Variable W : World.
Variable F : Flags.

Lemma collect_entries (library : types.Library) :
  always SameEntries anyAbort (collect W F library).
Proof.
  unfold collect, primaryProbe, compileExamples, probeExample, classifyImported,
    classify, selectFQBN, printDependencies, wipeUsedLibraries, builder_RunBuilder.
  repeat always_step; first [exact I | reflexivity].
Qed.

Lemma processLibrary_entries (library : types.Library) :
  always SameEntries anyAbort (processLibrary W F library).
Proof.
  unfold processLibrary, analyse.
  repeat always_step; auto using collect_entries, finalize_entries; reflexivity.
Qed.

End Entries.

(** X8. Whatever its outcome, the loop over the libraries changes nothing
    of the index but the [Requires] of its entries: their number, their
    order and every other field are kept, and so is the position at which
    each library is found. *)
Theorem loop_changes_only_requires (W : World) (F : Flags)
    (libraries : list types.Library) (m : Memory) :
  let m' := snd (forEach libraries (processLibrary W F) m) in
  set_Requires [] <$> Libraries (indexJson m') = set_Requires [] <$> Libraries (indexJson m) /\
  length (Libraries (indexJson m')) = length (Libraries (indexJson m)) /\
  forall library, positionOf library m' = positionOf library m.
Proof.
  cbv zeta.
  assert (H : SameEntries m (snd (forEach libraries (processLibrary W F) m))).
  { apply (always_forEach SameEntries anyAbort libraries (processLibrary W F)
             (processLibrary_entries W F) m). }
  unfold SameEntries in H. split; [exact H|]. split.
  - rewrite <- (length_fmap (set_Requires [])), H. apply length_fmap.
  - intros library. unfold positionOf, indexJsonContains.
    rewrite <- indexJsonContainsFrom_entries, H. apply indexJsonContainsFrom_entries.
Qed.

#[global] Instance Forall_additive (Q : Event -> Prop) : Additive (Forall Q).
Proof. split; [constructor | intros; apply Forall_app; auto]. Qed.

Lemma isStdout_awayFrom (link : string) (out : list Event) :
  Forall isStdout out -> Forall (awayFrom link) out.
Proof. intros H. eapply Forall_impl; [exact H|]. intros []; simpl; tauto. Qed.

(** X11. The events of the probes of one library, in every outcome: when
    the link path differs from the folder of the library, the symbolic link
    is made and announced first; then come the events of the probes, none of
    which makes a link or removes this one (the temporary folder being
    another path); and the link is removed at the end exactly when the
    probes complete: after a panic it is left in place. *)
Theorem symlink_removed_when_the_probes_complete (W : World) (F : Flags)
    (library : types.Library) (m m' : Memory)
    (outcome : (list string * list string) + Abort) :
  (forall h, newTempDir W h ("sketch" +:+ types.Name library) <> symlinkOf library) ->
  collect W F library m = (outcome, m') ->
  let link := symlinkOf library in
  exists probes,
    Forall (awayFrom link) probes /\
    history m' =
      history m
        ++ (if String.eqb link (types.Folder library) then []
            else [ Symlink (types.Folder library) link;
                   Stdout (("symlinking " +:+ types.Folder library +:+ " to " +:+ link) +:+ nl) ])
        ++ probes
        ++ (if String.eqb link (types.Folder library) then []
            else match outcome with
                 | inl _ => [RemoveAll link]
                 | inr _ => []
                 end).
Proof.
  intros Hdir. cbv zeta. unfold collect. fold (symlinkOf library).
  set (link := symlinkOf library) in *.
  set (pre := if String.eqb link (types.Folder library) then []
              else [ Symlink (types.Folder library) link;
                     Stdout (("symlinking " +:+ types.Folder library +:+ " to " +:+ link)
                               +:+ nl) ]).
  assert (Hlink : when (negb (String.eqb link (types.Folder library)))
                    (emit (Symlink (types.Folder library) link) ;;
                     Println ("symlinking " +:+ types.Folder library +:+ " to " +:+ link)) m
                  = (inl tt, set_history (history m ++ pre) m)).
  { unfold pre. destruct (String.eqb link (types.Folder library)).
    - cbn [negb when]. rewrite app_nil_r. destruct m as [c0 i0 p0 h0]; reflexivity.
    - cbn [negb when]. destruct m as [c0 i0 p0 h0]. run_cbn.
      rewrite <- app_assoc. reflexivity. }
  rewrite (bind_step _ _ _ _ _ Hlink). clear Hlink.
  set (m1 := set_history (history m ++ pre) m).
  assert (P_probe : forall h c r out,
             Forall isStdout out -> Forall (awayFrom link) (probeEvents W library h c r ++ out)).
  { intros h c r out Hout. apply Forall_app. split; [|apply isStdout_awayFrom; exact Hout].
    unfold probeEvents. repeat constructor. cbn. apply Hdir. }
  destruct (primaryProbe_since W library (Forall (awayFrom link)) P_probe m1)
    as [(evs1 & Hh1 & Hp1) _].
  unfold mbind at 1, Run_bind at 1.
  destruct (primaryProbe W library m1) as [[acc1|e] m2]; cbn [snd] in Hh1.
  - set (examples := if exampleFlag F then compileExamples W library acc1 else mret acc1).
    assert (Hex : always (Since (Forall (awayFrom link))) anyAbort examples).
    { unfold examples. destruct (exampleFlag F).
      - apply compileExamples_since; try apply _; intros; repeat constructor.
      - apply always_ret. apply _. }
    destruct (Hex m2) as [(evs2 & Hh2 & Hp2) _].
    unfold mbind at 1, Run_bind at 1.
    clearbody examples.
    destruct (examples m2) as [[acc2|e] m3]; cbn [snd] in Hh2.
    + destruct (String.eqb link (types.Folder library)) eqn:E.
      * cbn [negb when]. intros [= <- <-]. exists (evs1 ++ evs2).
        split; [apply Forall_app; auto|].
        rewrite Hh2, Hh1. unfold m1, pre. cbn [history set_history].
        rewrite !app_nil_r, <- !app_assoc. reflexivity.
      * destruct m3 as [c3 i3 p3 h3]. run_cbn. intros [= <- <-]. exists (evs1 ++ evs2).
        split; [apply Forall_app; auto|].
        cbn [history] in *. rewrite Hh2, Hh1. unfold m1, pre. cbn [history set_history].
        rewrite <- !app_assoc. reflexivity.
    + intros [= <- <-]. exists (evs1 ++ evs2). split; [apply Forall_app; auto|].
      rewrite Hh2, Hh1. unfold m1, pre. cbn [history set_history].
      destruct (String.eqb link (types.Folder library));
        rewrite ?app_nil_r, <- ?app_assoc; reflexivity.
  - intros [= <- <-]. exists evs1. split; [exact Hp1|].
    rewrite Hh1. unfold m1, pre. cbn [history set_history].
    destruct (String.eqb link (types.Folder library));
      rewrite ?app_nil_r, <- ?app_assoc; reflexivity.
Qed.

Lemma symlink_removed_when_the_probes_complete_witness :
  exists probes,
    history (snd (collect failing (mkFlags false false ["/libs"]) Robot
                    (inLoop ["/libs"] [] [] ∅))) =
    [ Symlink "/libs/Robot/src" "/libs/Robot/Robot";
      Stdout ("symlinking /libs/Robot/src to /libs/Robot/Robot" +:+ nl) ]
      ++ probes ++ [RemoveAll "/libs/Robot/Robot"].
Proof.
  assert (Hdir : forall h,
             newTempDir failing h ("sketch" +:+ types.Name Robot) <> symlinkOf Robot)
    by (intros h; vm_compute; discriminate).
  destruct (symlink_removed_when_the_probes_complete failing (mkFlags false false ["/libs"])
              Robot (inLoop ["/libs"] [] [] ∅) _ _ Hdir (surjective_pairing _))
    as (probes & _ & Hh).
  exists probes. rewrite Hh. vm_compute. reflexivity.
Defined.

(** X3. The parsing of the command line goes through exactly when the
    path of the index is given, the four folder flags and the build path
    unquote, a hardware and a tools folder are known, and the build path is
    empty or exists. It then prints nothing and leaves the context
    [parsed]: the folders given (a flag left empty keeps what the context
    had), verbose and quiet cancelling each other, the API version 10800,
    the debug level when it is above -1, and the logger. *)
Theorem parseFlags_succeeds_exactly (W : World) (F : Flags) (m m' : Memory) :
  parseFlags W F m = (inl tt, m') <->
  exists hardware tools libraries builtIn buildPath,
    Accepted W F m hardware tools libraries builtIn buildPath /\
    m' = set_ctx (parsed F hardware tools libraries builtIn buildPath (ctx m)) m.
Proof.
  split.
  - intros H. destruct (parseFlags_accepted W F m m' H) as (hw & tl & lb & bi & bp & Hacc).
    exists hw, tl, lb, bi, bp. split; [exact Hacc|].
    rewrite (parseFlags_accepts W F m hw tl lb bi bp Hacc) in H. congruence.
  - intros (hw & tl & lb & bi & bp & Hacc & ->). apply parseFlags_accepts. exact Hacc.
Qed.

Lemma main_startup_aborts (W : World) (F : Flags) (m m' : Memory) (e : Abort) :
  startup W F m = (inr e, m') -> main W F m = (inr e, m').
Proof. intros H. unfold main. apply bind_inr. exact H. Qed.

Lemma startup_parseFlags_aborts (W : World) (F : Flags) (m m' : Memory) (e : Abort) :
  parseFlags W F m = (inr e, m') -> startup W F m = (inr e, m').
Proof. intros H. unfold startup. apply bind_inr. exact H. Qed.

(** X4. The mandatory parameters, in the order they are checked: without
    the path of the index the run prints one line on the standard output
    and exits with code 1; with it but without a hardware folder, it prints
    the message and the usage on the standard error and exits with code 1;
    with a hardware folder but without a tools folder, likewise. Nothing
    else happens in these runs. *)
Theorem mandatory_parameters (W : World) (F : Flags) (m : Memory) :
  (librariesJsonPath F = "" ->
   main W F m =
   (inr (Exit 1),
    set_history
      (history m ++ [Stdout ("You need to pass the path of a library_index.json" +:+ nl)])
      m)) /\
  (librariesJsonPath F <> "" ->
   hardwareFoldersFlag F = [] -> types.HardwareFolders (ctx m) = [] ->
   main W F m =
   (inr (Exit 1),
    set_history
      (history m ++ [Stderr ("Parameter 'hardware' is mandatory" +:+ nl); FlagUsage]) m)) /\
  (forall hardware,
     librariesJsonPath F <> "" ->
     toSliceOfUnquoted W (hardwareFoldersFlag F) = inl hardware -> hardware <> [] ->
     toolsFoldersFlag F = [] -> types.ToolsFolders (ctx m) = [] ->
     main W F m =
     (inr (Exit 1),
      set_history
        (history m ++ [Stderr ("Parameter 'tools' is mandatory" +:+ nl); FlagUsage])
        (set_ctx (types.set_HardwareFolders hardware (ctx m)) m))).
Proof.
  split; [|split].
  - intros Hjson. apply main_startup_aborts, startup_parseFlags_aborts.
    unfold parseFlags. rewrite Hjson. destruct m as [c idx prev h]. reflexivity.
  - intros Hjson Hflag Hnone. apply main_startup_aborts, startup_parseFlags_aborts.
    unfold parseFlags. apply String.eqb_neq in Hjson. rewrite Hjson.
    rewrite (bind_step _ _ m m tt) by reflexivity.
    rewrite (bind_step _ _ m m tt)
      by (rewrite foldersInto_run, Hflag; reflexivity).
    step_get. rewrite Hnone. apply bind_inr.
    rewrite bool_decide_eq_true_2 by reflexivity.
    destruct m as [c idx prev h]. unfold printErrorMessageAndFlagUsage. run_cbn.
    rewrite <- app_assoc. reflexivity.
  - intros hardware Hjson Hhw Hgiven Hflag Hnone.
    apply main_startup_aborts, startup_parseFlags_aborts.
    unfold parseFlags. apply String.eqb_neq in Hjson. rewrite Hjson.
    rewrite (bind_step _ _ m m tt) by reflexivity.
    rewrite (bind_step _ _ _ _ _ (foldersInto_ok W _ _ _ _ Hhw)).
    destruct hardware as [|folder hardware]; [congruence|].
    step_get. rewrite (bind_step _ _ _ _ tt) by reflexivity.
    match goal with |- _ ?m1 = _ => set (m1' := m1) end.
    rewrite (bind_step _ _ m1' m1' tt)
      by (rewrite foldersInto_run, Hflag; reflexivity).
    step_get. unfold m1'. cbn [ctx set_ctx]. 
    replace (types.ToolsFolders (types.set_HardwareFolders (folder :: hardware) (ctx m)))
      with (@nil string) by (destruct m as [[] ? ? ?]; symmetry; exact Hnone).
    apply bind_inr. rewrite bool_decide_eq_true_2 by reflexivity.
    destruct m as [c idx prev h]. unfold printErrorMessageAndFlagUsage. run_cbn.
    rewrite <- app_assoc. reflexivity.
Qed.



#[global] Instance SameIndex_preorder :
  PreOrder (fun m m' : Memory => indexJson m' = indexJson m).
Proof. split; [intros m; reflexivity | intros m1 m2 m3 H1 H2; congruence]. Qed.


Lemma FsNode_nested_ind (P : FsNode -> Prop) :
  (forall name, P (File name)) ->
  (forall name, P (Dir name None)) ->
  (forall name files, Forall P files -> P (Dir name (Some files))) ->
  forall node, P node.
Proof.
  intros Hfile Hnone Hdir. fix IH 1. intros [name | name [files|]].
  - apply Hfile.
  - apply Hdir. revert files. fix IHfiles 1. intros [|file files].
    + constructor.
    + constructor; [apply IH | apply IHfiles].
  - apply Hnone.
Qed.

Lemma findFilesInNode_fails (extension : string) (node : FsNode) :
  forall sourcePath,
  isDir node = true ->
  (findFilesInNode extension true sourcePath node = None <-> unreadable node = true).
Proof.
  induction node as [name | name | name files IH] using FsNode_nested_ind;
    intros sourcePath Hdir.
  - discriminate.
  - split; reflexivity.
  - rewrite findFilesInNode_listing. cbn [unreadable].
    rewrite existsb_exists.
    set (f := fun folder => findFilesInNode extension true
                              (filepath.Join [sourcePath; nodeName folder]) folder).
    split.
    + intros Hnone.
      destruct (mapM f (filter (fun n => isDir n) files)) as [other|] eqn:E;
        [discriminate|].
      assert (Hno : ~ Forall (fun x => is_Some (f x)) (filter (fun n => isDir n) files)).
      { intros H. apply mapM_is_Some in H. rewrite E in H. destruct H; discriminate. }
      apply not_Forall_Exists in Hno; [|intros x; apply _].
      apply Exists_exists in Hno as (folder & Hin & Hfail).
      apply list_elem_of_filter in Hin as [Hisdir Hin].
      exists folder. split; [apply list_elem_of_In; exact Hin|].
      eapply (proj1 (Forall_forall _ _) IH); [exact Hin | |].
      * apply Is_true_true. exact Hisdir.
      * unfold f in Hfail. apply eq_None_not_Some. exact Hfail.
    + intros (folder & Hin & Hbad). apply list_elem_of_In in Hin.
      assert (Hisdir : isDir folder = true) by (destruct folder as [|? []]; [discriminate|..]; reflexivity).
      assert (Hfail : f folder = None).
      { unfold f. eapply (proj1 (Forall_forall _ _) IH); eauto. }
      destruct (mapM f (filter (fun n => isDir n) files)) as [other|] eqn:E; [|reflexivity].
      exfalso. assert (His : is_Some (mapM f (filter (fun n => isDir n) files)))
        by (rewrite E; eauto).
      apply mapM_is_Some in His.
      assert (Hin' : folder ∈ filter (fun n => isDir n) files)
        by (apply list_elem_of_filter; split; [apply Is_true_true; exact Hisdir | exact Hin]).
      pose proof (proj1 (Forall_forall _ _) His folder Hin') as [x Hx]. congruence.
Qed.

(** X7. [findFilesInFolder] without recursion fails exactly when the folder
    cannot be read; with recursion, exactly when the folder or a folder
    below it, at any depth, cannot be read. The callers drop the error: a
    library with such a folder gets a sketch without any include line, and
    an examples folder with one gives no example. *)
Theorem findFilesInFolder_fails_exactly (W : World) (sourcePath extension : string) :
  (findFilesInFolder W sourcePath extension false = None <-> readDir W sourcePath = None) /\
  (findFilesInFolder W sourcePath extension true = None <->
     unreadableFolder W sourcePath = true) /\
  (forall library,
     unreadableFolder W (types.Folder library) = true ->
     includeHeadersFromLibraryFolder W library = nl) /\
  (forall library,
     unreadableFolder W (filepath.Join [types.Folder library; "examples"]) = true ->
     examplesOf W library = []).
Proof.
  split; [|split; [|split]].
  - unfold findFilesInFolder. destruct (readDir W sourcePath) as [files|].
    + split; discriminate.
    + split; reflexivity.
  - unfold findFilesInFolder, unreadableFolder. apply findFilesInNode_fails. reflexivity.
  - intros library Hbad. unfold includeHeadersFromLibraryFolder, findFilesInFolder.
    rewrite (proj2 (findFilesInNode_fails ".h" (Dir _ _) (types.Folder library) eq_refl)
               Hbad).
    reflexivity.
  - intros library Hbad. unfold examplesOf, findFilesInFolder.
    rewrite (proj2 (findFilesInNode_fails ".ino" (Dir _ _) _ eq_refl) Hbad).
    reflexivity.
Qed.
